(** * A STUN Binding server: codec and admission control

    Shallow embedding of the three variants of [stun-server.ts]:

    - the original script (module-level limiter state, transaction id
      folded cyclically into the mapped address), in [Module Original];
    - the class-based rewrite ([RateLimiter] class, first four
      transaction-id bytes only), in [Module Refactored];
    - the config-driven rewrite, whose only difference for the core is the
      validating constructor, in [Module Configured].

    Buffers are lists of byte values kept as [Z]; the JavaScript 32-bit
    operators are written out with their wrap-around; the [Buffer] writers
    that raise [RangeError] return in an error monad. *)

From Stdlib Require Import ZArith Lia Bool.
From stdpp Require Import base numbers list strings gmap.

Local Open Scope Z_scope.

(** ** Exceptions *)

Inductive JsError : Type :=
| RangeError                       (* ERR_OUT_OF_RANGE of the Buffer API *)
| Error (msg : string).            (* [throw new Error(msg)] *)

Inductive result (A : Type) : Type :=
| Ok (a : A)
| Throw (e : JsError).
Arguments Ok {A} a.
Arguments Throw {A} e.

Definition rbind {A B} (m : result A) (k : A -> result B) : result B :=
  match m with
  | Ok a => k a
  | Throw e => Throw e
  end.

Notation "'let!' x ':=' m 'in' k" := (rbind m (fun x => k))
  (at level 10, x name, m at level 100, k at level 200).

(** ** JavaScript numeric operators on integers *)

Definition toInt32 (z : Z) : Z := (z + 2 ^ 31) mod 2 ^ 32 - 2 ^ 31.
Definition toUint8 (z : Z) : Z := z mod 256.

(** [a ^ b], [a & b] and [a >> n] of JavaScript. *)
Definition js_xor (a b : Z) : Z := Z.lxor (toInt32 a) (toInt32 b).
Definition js_and (a b : Z) : Z := Z.land (toInt32 a) (toInt32 b).
Definition js_sar (a n : Z) : Z := Z.shiftr (toInt32 a) (n mod 32).

(** ** Buffers *)

Abbreviation Buffer := (list Z) (only parsing).

Definition isByte (b : Z) : Prop := 0 <= b < 256.
Definition isBuffer (b : Buffer) : Prop := Forall isByte b.

(** [Buffer.alloc(n)] *)
Definition alloc (n : nat) : Buffer := replicate n 0.

(** [Buffer.from(array)]: every entry is stored modulo 256. *)
Definition Buffer_from (a : list Z) : Buffer := toUint8 <$> a.

(** [Buffer.concat(list)] *)
Definition Buffer_concat (l : list Buffer) : Buffer := concat l.

(** [buf.slice(start, end)] / [buf.subarray(start, end)] and the one-argument
    form; the end is clamped to the length. *)
Definition slice (s e : nat) (b : Buffer) : Buffer := take (e - s) (drop s b).
Definition sliceFrom (s : nat) (b : Buffer) : Buffer := drop s b.

(** [src.copy(target, targetStart)]: copies as many bytes as fit. *)
Definition copy (src target : Buffer) (targetStart : nat) : Buffer :=
  let n := (length src `min` (length target - targetStart))%nat in
  take targetStart target ++ take n src ++ drop (targetStart + n) target.

(** [buf[i]] read under a bitwise operator ([undefined] counts as 0) and the
    typed-array store [buf[i] = v], which is ignored out of range. *)
Definition getIndex (b : Buffer) (i : nat) : Z := default 0 (b !! i).
Definition setIndex (i : nat) (v : Z) (b : Buffer) : Buffer := <[i := toUint8 v]> b.

(** [buf[i] ^= v] *)
Definition xorAssign (i : nat) (v : Z) (b : Buffer) : Buffer :=
  setIndex i (js_xor (getIndex b i) v) b.

Definition fits (off n : nat) (b : Buffer) : bool := (off + n <=? length b)%nat.

Definition writeUInt8 (v : Z) (off : nat) (b : Buffer) : result Buffer :=
  if (0 <=? v) && (v <=? 255) && fits off 1 b
  then Ok (<[off := v]> b)
  else Throw RangeError.

Definition writeUInt16BE (v : Z) (off : nat) (b : Buffer) : result Buffer :=
  if (0 <=? v) && (v <=? 65535) && fits off 2 b
  then Ok (<[S off := v mod 256]> (<[off := v / 256]> b))
  else Throw RangeError.

Definition writeUInt32BE (v : Z) (off : nat) (b : Buffer) : result Buffer :=
  if (0 <=? v) && (v <=? 4294967295) && fits off 4 b
  then Ok (<[S (S (S off)) := v mod 256]>
          (<[S (S off) := (v / 256) mod 256]>
          (<[S off := (v / 65536) mod 256]>
          (<[off := v / 16777216]> b))))
  else Throw RangeError.

Definition readUInt16BE (off : nat) (b : Buffer) : result Z :=
  match b !! off, b !! S off with
  | Some b0, Some b1 => Ok (b0 * 256 + b1)
  | _, _ => Throw RangeError
  end.

Definition readUInt32BE (off : nat) (b : Buffer) : result Z :=
  match b !! off, b !! S off, b !! S (S off), b !! S (S (S off)) with
  | Some b0, Some b1, Some b2, Some b3 =>
      Ok (b0 * 16777216 + b1 * 65536 + b2 * 256 + b3)
  | _, _, _, _ => Throw RangeError
  end.

(** ** STUN constants *)

Definition STUN_MAGIC_COOKIE : Z := 0x2112A442.
Definition STUN_BINDING_REQUEST : Z := 0x0001.
Definition STUN_BINDING_RESPONSE : Z := 0x0101.
Definition STUN_ATTR_XOR_MAPPED_ADDRESS : Z := 0x0020.

(** [(STUN_MAGIC_COOKIE >> (24 - i * 8)) & 0xFF] *)
Definition cookieByte (i : nat) : Z :=
  js_and (js_sar STUN_MAGIC_COOKIE (24 - Z.of_nat i * 8)) 0xFF.

(** The magic cookie, most significant byte first. *)
Definition cookieBytes : list Z := [0x21; 0x12; 0xA4; 0x42].

(** First loop of [createXorMappedAddress], the same in every variant:
    [for (let i = 0; i < 4; i++) addrBuf[i] ^= cookieByte(i)]. *)
Definition xorCookie (addrBuf : Buffer) : Buffer :=
  foldl (fun b i => xorAssign i (cookieByte i) b) addrBuf (seq 0 4).

(** ** The message decoder *)

Record StunMessage : Type := {
  msg_type : Z;                  (* field [type] *)
  msg_length : Z;                (* field [length] *)
  transactionId : Buffer;
  attributes : Buffer
}.

(** [parseStunMessage], the same in the three variants ([null] is [None]). *)
Definition parseStunMessage (data : Buffer) : result (option StunMessage) :=
  if (length data <? 20)%nat then Ok None else
  let! type := readUInt16BE 0 data in
  let! len := readUInt16BE 2 data in
  let! cookie := readUInt32BE 4 data in
  let transactionId := slice 8 20 data in
  if negb (cookie =? STUN_MAGIC_COOKIE) then Ok None else
  if negb (Z.of_nat (length data) =? 20 + len) then Ok None else
  Ok (Some {| msg_type := type; msg_length := len;
              transactionId := transactionId;
              attributes := sliceFrom 20 data |}).

(** The decoder as the specification words it: the rules of its section 4.1
    in order, each failure with its own name. *)
Inductive DecodeError : Type := TooShort | BadCookie | LengthMismatch.

(** A big-endian unsigned integer. *)
Definition bigEndian (bytes : list Z) : Z :=
  foldl (fun acc b => acc * 256 + b) 0 bytes.

Definition decode (datagram : Buffer) : DecodeError + StunMessage :=
  if decide (length datagram < 20)%nat then inl TooShort else
  let messageType := bigEndian (slice 0 2 datagram) in
  let declaredBodyLength := bigEndian (slice 2 4 datagram) in
  let magicCookie := bigEndian (slice 4 8 datagram) in
  let transactionId := slice 8 20 datagram in
  if decide (magicCookie <> 0x2112A442) then inl BadCookie else
  if decide (Z.of_nat (length datagram) <> 20 + declaredBodyLength)
  then inl LengthMismatch else
  inr {| msg_type := messageType; msg_length := declaredBodyLength;
         transactionId := transactionId;
         attributes := drop 20 datagram |}.

Definition forgetError (r : DecodeError + StunMessage) : option StunMessage :=
  match r with
  | inl _ => None
  | inr m => Some m
  end.

(** ** The response assembler *)

(** [createStunResponse], the same in the three variants. *)
Definition createStunResponse
    (type : Z) (transactionId : Buffer) (attributes : list Buffer) : result Buffer :=
  let attrBuf := Buffer_concat attributes in
  let bodyLength := Z.of_nat (length attrBuf) in
  let header := alloc 20 in
  let! header := writeUInt16BE type 0 header in
  let! header := writeUInt16BE bodyLength 2 header in
  let! header := writeUInt32BE STUN_MAGIC_COOKIE 4 header in
  let header := copy transactionId header 8 in
  Ok (Buffer_concat [header; attrBuf]).

(** The response as the specification lays it out. *)
Definition specResponse
    (messageType : Z) (transactionId : Buffer) (attributes : list Buffer) : Buffer :=
  let bodyLength := Z.of_nat (sum_list (length <$> attributes)) in
  [messageType / 256; messageType mod 256; bodyLength / 256; bodyLength mod 256]
    ++ cookieBytes ++ transactionId ++ concat attributes.

(** ** The admission controller *)

(** The fields of [class RateLimiter]. *)
Record RateLimiter : Type := {
  timestamps : list Z;
  isPaused : bool;
  maxRequests : Z;
  timeWindow : Z;
  pauseDuration : Z
}.

Definition setTimestamps (ts : list Z) (l : RateLimiter) : RateLimiter :=
  {| timestamps := ts; isPaused := isPaused l; maxRequests := maxRequests l;
     timeWindow := timeWindow l; pauseDuration := pauseDuration l |}.

Definition setPaused (p : bool) (l : RateLimiter) : RateLimiter :=
  {| timestamps := timestamps l; isPaused := p; maxRequests := maxRequests l;
     timeWindow := timeWindow l; pauseDuration := pauseDuration l |}.

(** The event loop around the limiter: [timers] holds the deadline of every
    callback registered with [setTimeout] and not yet run.  All the callbacks
    of this program are the same closure, [resume]. *)
Record World : Type := {
  limiter : RateLimiter;
  timers : list Z
}.

(** [this.timestamps.filter(ts => now - ts < this.timeWindow)] *)
Definition prune (now : Z) (l : RateLimiter) : list Z :=
  filter (fun ts => now - ts < timeWindow l) (timestamps l).

(** The callback of [triggerPause]:
    [this.isPaused = false; this.timestamps = []]. *)
Definition resume (l : RateLimiter) : RateLimiter :=
  setTimestamps [] (setPaused false l).

(** [setTimeout(callback, delay)] keeps a delay from 1 to [2^31 - 1] and sets
    any other to 1. *)
Definition TIMEOUT_MAX : Z := 2147483647.

Definition setTimeoutDelay (delay : Z) : Z :=
  if decide (1 <= delay <= TIMEOUT_MAX) then delay else 1.

(** [triggerPause()]: [setTimeout(callback, this.pauseDuration)] registers the
    callback for the instant [now] plus the delay [setTimeout] keeps. *)
Definition triggerPause (now : Z) (w : World) : World :=
  {| limiter := setPaused true (limiter w);
     timers := timers w ++ [now + setTimeoutDelay (pauseDuration (limiter w))] |}.

(** [check()], with [Date.now()] passed in as [now]. *)
Definition check (now : Z) (w : World) : bool * World :=
  if isPaused (limiter w) then (false, w) else
  let l := setTimestamps (prune now (limiter w)) (limiter w) in
  let l := setTimestamps (timestamps l ++ [now]) l in
  let w := {| limiter := l; timers := timers w |} in
  if decide (Z.of_nat (length (timestamps l)) > maxRequests l)
  then (false, triggerPause now w)
  else (true, w).

(** [getPausedState()] and [getCurrentCount()] *)
Definition getPausedState (l : RateLimiter) : bool := isPaused l.
Definition getCurrentCount (l : RateLimiter) : Z := Z.of_nat (length (timestamps l)).

(** One turn of the event loop at instant [now]: the callbacks whose deadline
    has come are run and removed. *)
Definition runTimers (now : Z) (w : World) : World :=
  {| limiter := foldl (fun l _ => resume l) (limiter w)
                      (filter (fun d => d <= now) (timers w));
     timers := filter (fun d => ~ d <= now) (timers w) |}.

(** What the loop is given: a datagram arriving at [now], or a turn at [now]
    with no datagram. *)
Inductive Event : Type :=
| Datagram (now : Z)
| Tick (now : Z).

Definition eventTime (e : Event) : Z :=
  match e with
  | Datagram now => now
  | Tick now => now
  end.

(** The result is the answer of [check()] when a datagram was handled. *)
Definition step (e : Event) (w : World) : option bool * World :=
  match e with
  | Tick now => (None, runTimers now w)
  | Datagram now =>
      let (r, w') := check now (runTimers now w) in (Some r, w')
  end.

Fixpoint run (es : list Event) (w : World) : list (option bool) * World :=
  match es with
  | [] => ([], w)
  | e :: es =>
      let (r, w') := step e w in
      let (rs, w'') := run es w' in
      (r :: rs, w'')
  end.

(** A burst of checks with no loop turn in between. *)
Fixpoint checks (nows : list Z) (w : World) : list bool * World :=
  match nows with
  | [] => ([], w)
  | now :: nows =>
      let (r, w') := check now w in
      let (rs, w'') := checks nows w' in
      (r :: rs, w'')
  end.

Definition boot (l : RateLimiter) : World := {| limiter := l; timers := [] |}.

(** ** The variants *)

(** [addrBytes] is [address.split('.').map(Number)], the octets of the
    dotted quad. *)

Module Original.

(** [for (let i = 0; i < transactionId.length; i++)
       addrBuf[i % 4] ^= transactionId[i]] *)
Definition xorTransactionId (transactionId addrBuf : Buffer) : Buffer :=
  foldl (fun b i => xorAssign (i mod 4)%nat (getIndex transactionId i) b)
        addrBuf (seq 0 (length transactionId)).

Definition createXorMappedAddress
    (family port : Z) (addrBytes : list Z) (transactionId : Buffer) : result Buffer :=
  let buf := alloc 20 in
  let! buf := writeUInt16BE STUN_ATTR_XOR_MAPPED_ADDRESS 0 buf in
  let offset := 4%nat in
  let! buf := writeUInt8 0 offset buf in
  let! buf := writeUInt8 family (offset + 1) buf in
  let offset := (offset + 2)%nat in
  let xorPort := js_xor port (js_sar STUN_MAGIC_COOKIE 16) in
  let! buf := writeUInt16BE xorPort offset buf in
  let offset := (offset + 2)%nat in
  let addrBuf := Buffer_from addrBytes in
  let addrBuf := xorCookie addrBuf in
  let addrBuf := xorTransactionId transactionId addrBuf in
  let buf := copy addrBuf buf offset in
  let attrLength := Z.of_nat (offset + 4 - 4) in
  let! buf := writeUInt16BE attrLength 2 buf in
  Ok (slice 0 (offset + 4) buf).

Definition MAX_REQUESTS : Z := 30.
Definition TIME_WINDOW : Z := 10 * 1000.
Definition PAUSE_DURATION : Z := 3 * 1000.

(** The module-level variables, with the pending timers of the loop. *)
Record Globals : Type := {
  requestTimestamps : list Z;
  isPaused : bool;
  timers : list Z
}.

Definition initial : Globals :=
  {| requestTimestamps := []; isPaused := false; timers := [] |}.

Definition checkRateLimit (now : Z) (g : Globals) : bool * Globals :=
  let ts := filter (fun ts => now - ts < TIME_WINDOW) (requestTimestamps g) in
  let ts := ts ++ [now] in
  if bool_decide (Z.of_nat (length ts) > MAX_REQUESTS) && negb (isPaused g)
  then (false, {| requestTimestamps := ts; isPaused := true;
                  timers := timers g ++ [now + PAUSE_DURATION] |})
  else (true, {| requestTimestamps := ts; isPaused := isPaused g;
                 timers := timers g |}).

(** The callback of [setTimeout]. *)
Definition resume (g : Globals) : Globals :=
  {| requestTimestamps := []; isPaused := false; timers := timers g |}.

(** The gate of the [data] handler, [isPaused || !checkRateLimit()], which
    decides that the datagram is dropped; the result here is its negation,
    the datagram going through. *)
Definition gate (now : Z) (g : Globals) : bool * Globals :=
  if isPaused g then (false, g)
  else let (r, g') := checkRateLimit now g in (negb (negb r), g').

(** The loop of the script: due callbacks first, then the handler. *)
Definition runTimers (now : Z) (g : Globals) : Globals :=
  let g' := foldl (fun g _ => resume g) g
                  (filter (fun d => d <= now) (timers g)) in
  {| requestTimestamps := requestTimestamps g'; isPaused := isPaused g';
     timers := filter (fun d => ~ d <= now) (timers g) |}.

Definition step (e : Event) (g : Globals) : option bool * Globals :=
  match e with
  | Tick now => (None, runTimers now g)
  | Datagram now =>
      let (r, g') := gate now (runTimers now g) in (Some r, g')
  end.


Fixpoint run (es : list Event) (g : Globals) : list (option bool) * Globals :=
  match es with
  | [] => ([], g)
  | e :: es =>
      let (r, g') := step e g in
      let (rs, g'') := run es g' in
      (r :: rs, g'')
  end.

(** The [data] handler of [Bun.listen]: the gate, the decoder, the test of
    the message type, the attribute, the response; [Some response] is what
    [socket.write] is given.  [remoteAddress] stands for
    [socket.remoteAddress.split('.').map(Number)]. *)
Definition onData (now : Z) (data : Buffer) (remotePort : Z)
    (remoteAddress : list Z) (g : Globals) : result (option Buffer * Globals) :=
  let (ok, g) := gate now g in
  if negb ok then Ok (None, g) else
  let! parsed := parseStunMessage data in
  match parsed with
  | None => Ok (None, g)
  | Some parsed =>
      if negb (msg_type parsed =? STUN_BINDING_REQUEST) then Ok (None, g) else
      let family := 1 in
      let! xorAttr := createXorMappedAddress family remotePort remoteAddress
                        (transactionId parsed) in
      let! response := createStunResponse STUN_BINDING_RESPONSE
                         (transactionId parsed) [xorAttr] in
      Ok (Some response, g)
  end.

End Original.

Module Refactored.

(** [for (let i = 0; i < transactionId.length && i < 4; i++)
       addrBuf[i] ^= transactionId[i]] *)
Definition xorTransactionId (transactionId addrBuf : Buffer) : Buffer :=
  foldl (fun b i => xorAssign i (getIndex transactionId i) b)
        addrBuf (seq 0 (length transactionId `min` 4)).

Definition createXorMappedAddress
    (family port : Z) (addrBytes : list Z) (transactionId : Buffer) : result Buffer :=
  let buf := alloc 12 in
  let! buf := writeUInt16BE STUN_ATTR_XOR_MAPPED_ADDRESS 0 buf in
  let! buf := writeUInt16BE 8 2 buf in
  let! buf := writeUInt8 0 4 buf in
  let! buf := writeUInt8 family 5 buf in
  let xorPort := js_xor port (js_sar STUN_MAGIC_COOKIE 16) in
  let! buf := writeUInt16BE xorPort 6 buf in
  let addrBuf := Buffer_from addrBytes in
  let addrBuf := xorCookie addrBuf in
  let addrBuf := xorTransactionId transactionId addrBuf in
  let buf := copy addrBuf buf 8 in
  Ok buf.

(** [constructor(maxRequests = 300, timeWindowMs = 10000,
                 pauseDurationMs = 3000)] *)
Definition RateLimiter_new (maxRequests timeWindowMs pauseDurationMs : Z)
  : RateLimiter :=
  {| timestamps := []; isPaused := false; maxRequests := maxRequests;
     timeWindow := timeWindowMs; pauseDuration := pauseDurationMs |}.

(** [const limiter = new RateLimiter(30, 10000, 3000)] *)
Definition limiter : RateLimiter := RateLimiter_new 30 10000 3000.


(** [server.send(response, port, address, callback)]: the port is checked at
    once and must lie in 1..65535, or the call raises
    [ERR_SOCKET_BAD_PORT], a [RangeError]; the result is the datagram handed
    to the socket. *)
Definition send (response : Buffer) (port : Z) : result Buffer :=
  if decide (1 <= port <= 65535) then Ok response else Throw RangeError.

(** The ['message'] handler: [limiter.check()], the decoder, the test of the
    message type, the attribute, the response, and [server.send] for
    [rinfo.port] and [rinfo.address]; [Some response] is the datagram sent,
    and an exception leaves the handler, whatever the limiter has recorded.
    [address] stands for [rinfo.address.split('.').map(Number)]. *)
Definition onMessage (now : Z) (msg : Buffer) (port : Z) (address : list Z)
    (w : World) : result (option Buffer * World) :=
  let (ok, w) := check now w in
  if negb ok then Ok (None, w) else
  let! parsed := parseStunMessage msg in
  match parsed with
  | None => Ok (None, w)
  | Some parsed =>
      if negb (msg_type parsed =? STUN_BINDING_REQUEST) then Ok (None, w) else
      let family := 1 in
      let! xorAttr := createXorMappedAddress family port address
                        (transactionId parsed) in
      let! response := createStunResponse STUN_BINDING_RESPONSE
                         (transactionId parsed) [xorAttr] in
      let! sent := send response port in
      Ok (Some sent, w)
  end.

End Refactored.

Module Configured.

Definition RateLimiter_new (maxRequests timeWindowMs pauseDurationMs : Z)
  : result RateLimiter :=
  if decide (maxRequests <= 0)
  then Throw (Error "maxRequests must be greater than 0") else
  if decide (timeWindowMs <= 0)
  then Throw (Error "timeWindowMs must be greater than 0") else
  if decide (pauseDurationMs <= 0)
  then Throw (Error "pauseDurationMs must be greater than 0") else
  Ok {| timestamps := []; isPaused := false; maxRequests := maxRequests;
        timeWindow := timeWindowMs; pauseDuration := pauseDurationMs |}.


Definition LOG_DEBOUNCE_MS : Z := 5000.

(** What the callback of [server.send] prints. *)
Inductive LogLine : Type := LogSendError | LogSent | NoLog.

(** The callback of [server.send], with [Date.now()] passed in as [now] and
    the map [lastLogTime] threaded through: [!lastLog] holds of a missing
    entry and of the instant 0. *)
Definition sendCallback (err : bool) (now : Z) (address : string)
    (lastLogTime : gmap string Z) : LogLine * gmap string Z :=
  if err then (LogSendError, lastLogTime) else
  match lastLogTime !! address with
  | Some lastLog =>
      if (lastLog =? 0) || bool_decide (now - lastLog > LOG_DEBOUNCE_MS)
      then (LogSent, <[address := now]> lastLogTime)
      else (NoLog, lastLogTime)
  | None => (LogSent, <[address := now]> lastLogTime)
  end.

(** Successive callbacks of successful sends, each an instant and an
    address: the ones that print, in order, and the map in the end. *)
Fixpoint sendCallbacks (sends : list (Z * string)) (lastLogTime : gmap string Z)
  : list (Z * string) * gmap string Z :=
  match sends with
  | [] => ([], lastLogTime)
  | (now, address) :: sends =>
      let (line, m) := sendCallback false now address lastLogTime in
      let (printed, m') := sendCallbacks sends m in
      (match line with
       | LogSent => (now, address) :: printed
       | _ => printed
       end, m')
  end.

End Configured.

(** The worlds the program can be in: a limiter as constructed, then any
    sequence of loop turns. *)
Inductive reachable : World -> Prop :=
| reachable_boot (m w p : Z) :
    reachable (boot (Refactored.RateLimiter_new m w p))
| reachable_step (e : Event) (w : World) :
    reachable w -> reachable (step e w).2.

(** The attribute as the specification lays it out: type [0x0020], value
    length 8, reserved 0, family 1, the port XOR [0x2112], then each address
    octet XOR the cookie byte XOR the transaction-id byte of the same index. *)
Definition specXorAddress (ipv4Octets transactionId : list Z) : list Z :=
  zip_with Z.lxor (zip_with Z.lxor ipv4Octets cookieBytes) (take 4 transactionId).

Definition specXorMappedAddress (port : Z) (ipv4Octets transactionId : list Z) : Buffer :=
  let xorPort := Z.lxor port 0x2112 in
  [0x00; 0x20; 0x00; 0x08; 0x00; 0x01; xorPort / 256; xorPort mod 256]
    ++ specXorAddress ipv4Octets transactionId.

(** What the original script computes instead: the twelve transaction-id
    bytes are folded onto the four address bytes, index modulo 4. *)
Definition cyclicXorAddress (ipv4Octets transactionId : list Z) : list Z :=
  zip_with Z.lxor
    (zip_with Z.lxor (specXorAddress ipv4Octets transactionId)
                     (take 4 (drop 4 transactionId)))
    (take 4 (drop 8 transactionId)).

Definition cyclicXorMappedAddress (port : Z) (ipv4Octets transactionId : list Z) : Buffer :=
  let xorPort := Z.lxor port 0x2112 in
  [0x00; 0x20; 0x00; 0x08; 0x00; 0x01; xorPort / 256; xorPort mod 256]
    ++ cyclicXorAddress ipv4Octets transactionId.

(** Two byte sequences that differ in the byte of index [i] and nowhere
    else. *)
Definition differAt (i : nat) (l l' : list Z) : Prop :=
  exists x v, l !! i = Some x /\ x <> v /\ isByte v /\ l' = <[i := v]> l.

(** What holds of every reachable world: a callback is pending exactly
    during a pause, there is one only, and during a pause the timestamps
    recorded up to the tripping request are still there. *)
Definition invariant (w : World) : Prop :=
  if isPaused (limiter w)
  then (exists d, timers w = [d]) /\ timestamps (limiter w) <> []
  else timers w = [].

(** A burst within the window [W]: every instant comes less than [W] after
    each earlier one, so that [prune] drops none of them. *)
Fixpoint withinWindow (W : Z) (nows : list Z) : Prop :=
  match nows with
  | [] => True
  | t :: rest => Forall (fun t' => t' - t < W) rest /\ withinWindow W rest
  end.

(** The original script and a class-based limiter built with the constants
    of the script, in the same state. *)
Definition sameState (g : Original.Globals) (w : World) : Prop :=
  Original.requestTimestamps g = timestamps (limiter w) /\
  Original.isPaused g = isPaused (limiter w) /\
  Original.timers g = timers w /\
  maxRequests (limiter w) = Original.MAX_REQUESTS /\
  timeWindow (limiter w) = Original.TIME_WINDOW /\
  pauseDuration (limiter w) = Original.PAUSE_DURATION.

(** Printed lines more than [LOG_DEBOUNCE_MS] apart for each address. *)
Fixpoint spaced (printed : list (Z * string)) : Prop :=
  match printed with
  | [] => True
  | (t, a) :: rest =>
      Forall (fun p => p.2 = a -> p.1 - t > Configured.LOG_DEBOUNCE_MS) rest /\
      spaced rest
  end.

(** A well-formed Binding Request: at least a header, the magic cookie, the
    declared body length and the type [0x0001]. *)
Definition isBindingRequest (d : Buffer) : Prop :=
  (20 <= length d)%nat /\
  bigEndian (slice 4 8 d) = 0x2112A442 /\
  Z.of_nat (length d) = 20 + bigEndian (slice 2 4 d) /\
  bigEndian (slice 0 2 d) = 0x0001.

(** The response to a Binding Request, given the attribute. *)
Definition bindingResponse (tid attr : Buffer) : Buffer :=
  [0x01; 0x01; 0x00; 0x0C] ++ cookieBytes ++ tid ++ attr.

(** The timestamps held never outnumber [maxRequests] outside a pause, and
    by one at most during it. *)
Definition bounded (w : World) : Prop :=
  getCurrentCount (limiter w)
  <= Z.max 0 (maxRequests (limiter w))
     + (if getPausedState (limiter w) then 1 else 0).

(** ** Sample inputs *)

(** The request of the end-to-end example of the specification: transaction
    id [0x00112233445566778899AABB] from [203.0.113.7:54321]. *)
Definition samplePort : Z := 54321.
Definition sampleOctets : list Z := [203; 0; 113; 7].
Definition sampleTid : list Z :=
  [0x00; 0x11; 0x22; 0x33; 0x44; 0x55; 0x66; 0x77; 0x88; 0x99; 0xAA; 0xBB].
Definition sampleRequest : Buffer := [0x00; 0x01; 0x00; 0x00] ++ cookieBytes ++ sampleTid.

(** A datagram of 19 zero bytes, and an attribute of 65536 bytes. *)
Definition shortDatagram : Buffer := replicate 19 0.
Definition oversizedAttribute : Buffer := replicate (256 * 256) 0.

(** Thirty-one datagrams, one per millisecond, on the limiter of the
    class-based variant, [new RateLimiter(30, 10000, 3000)]. *)
Definition burst31 : list Event := Datagram <$> (Z.of_nat <$> seq 0 31).
Definition afterBurst31 : World := (run burst31 (boot Refactored.limiter)).2.


(** What the loop answers while a pause lasts. *)
Definition pausedAnswer (e : Event) : option bool :=
  match e with
  | Datagram _ => Some false
  | Tick _ => None
  end.

(** * Properties *)

Example original_sample :
  Original.createXorMappedAddress 1 54321 [203; 0; 113; 7]
    [0x00; 0x11; 0x22; 0x33; 0x44; 0x55; 0x66; 0x77; 0x88; 0x99; 0xAA; 0xBB]
  = Ok [0; 32; 0; 8; 0; 1; 245; 35; 38; 207; 59; 186].
Proof. vm_compute. reflexivity. Qed.

Example refactored_sample :
  Refactored.createXorMappedAddress 1 54321 [203; 0; 113; 7]
    [0x00; 0x11; 0x22; 0x33; 0x44; 0x55; 0x66; 0x77; 0x88; 0x99; 0xAA; 0xBB]
  = Ok [0; 32; 0; 8; 0; 1; 245; 35; 234; 3; 247; 118].
Proof. vm_compute. reflexivity. Qed.

(** ** Arithmetic of the JavaScript operators on small values *)

Lemma toInt32_small (z : Z) : 0 <= z < 2 ^ 31 -> toInt32 z = z.
Proof.
  intros Hz. unfold toInt32.
  change (2 ^ 31) with 2147483648 in *. change (2 ^ 32) with 4294967296.
  rewrite Z.mod_small; lia.
Qed.

Lemma lxor_bound (n a b : Z) :
  0 <= n -> 0 <= a < 2 ^ n -> 0 <= b < 2 ^ n -> 0 <= Z.lxor a b < 2 ^ n.
Proof.
  intros Hn Ha Hb.
  assert (Hnn : 0 <= Z.lxor a b) by (apply Z.lxor_nonneg; lia).
  split; [exact Hnn|].
  destruct (Z.eq_dec (Z.lxor a b) 0) as [->|Hne].
  - apply Z.pow_pos_nonneg; lia.
  - assert (0 < n).
    { destruct (Z.eq_dec n 0) as [->|?]; [|lia].
      change (2 ^ 0) with 1 in *.
      assert (a = 0) as -> by lia. assert (b = 0) as -> by lia.
      now elim Hne. }
    apply Z.log2_lt_pow2; [lia|].
    eapply Z.le_lt_trans; [apply Z.log2_lxor; lia|].
    apply Z.max_lub_lt.
    + destruct (Z.eq_dec a 0) as [->|?]; [simpl; lia|apply Z.log2_lt_pow2; lia].
    + destruct (Z.eq_dec b 0) as [->|?]; [simpl; lia|apply Z.log2_lt_pow2; lia].
Qed.

Lemma lxor_byte (a b : Z) : isByte a -> isByte b -> isByte (Z.lxor a b).
Proof.
  unfold isByte. intros Ha Hb. change 256 with (2 ^ 8) in *.
  apply lxor_bound; lia.
Qed.

Lemma js_xor_small (a b : Z) :
  0 <= a < 2 ^ 31 -> 0 <= b < 2 ^ 31 -> js_xor a b = Z.lxor a b.
Proof. intros Ha Hb. unfold js_xor. now rewrite !toInt32_small. Qed.

Lemma toUint8_byte (b : Z) : isByte b -> toUint8 b = b.
Proof. unfold isByte, toUint8. intros. apply Z.mod_small. lia. Qed.

Lemma cookie_shift : js_sar STUN_MAGIC_COOKIE 16 = 0x2112.
Proof. reflexivity. Qed.

Lemma cookieByte_spec : cookieByte <$> seq 0 4 = cookieBytes.
Proof. reflexivity. Qed.

(** [port ^ (STUN_MAGIC_COOKIE >> 16)] stays a 16-bit value. *)
Lemma xorPort_range (port : Z) :
  0 <= port <= 65535 ->
  js_xor port (js_sar STUN_MAGIC_COOKIE 16) = Z.lxor port 0x2112 /\
  0 <= Z.lxor port 0x2112 <= 65535.
Proof.
  intros Hp. rewrite cookie_shift.
  rewrite js_xor_small by (change (2 ^ 31) with 2147483648; lia).
  split; [reflexivity|].
  assert (H : 0 <= Z.lxor port 0x2112 < 2 ^ 16)
    by (apply lxor_bound; change (2 ^ 16) with 65536; lia).
  change (2 ^ 16) with 65536 in H. lia.
Qed.

(** One step [buf[i] ^= v] on bytes. *)
Lemma xorAssign_byte (i : nat) (v x : Z) (b : Buffer) :
  b !! i = Some x -> isByte x -> isByte v ->
  xorAssign i v b = <[i := Z.lxor x v]> b.
Proof.
  intros Hi Hx Hv. unfold xorAssign, setIndex, getIndex. rewrite Hi. simpl.
  rewrite js_xor_small
    by (unfold isByte in *; change (2 ^ 31) with 2147483648; lia).
  now rewrite toUint8_byte by (apply lxor_byte; assumption).
Qed.

Lemma writeUInt16BE_ok (v : Z) (off : nat) (b : Buffer) :
  0 <= v <= 65535 -> (off + 2 <= length b)%nat ->
  writeUInt16BE v off b = Ok (<[S off := v mod 256]> (<[off := v / 256]> b)).
Proof.
  intros Hv Hoff. unfold writeUInt16BE, fits.
  destruct (Z.leb_spec 0 v); [|lia].
  destruct (Z.leb_spec v 65535); [|lia].
  destruct (Nat.leb_spec (off + 2) (length b)); [reflexivity|lia].
Qed.

Lemma writeUInt8_ok (v : Z) (off : nat) (b : Buffer) :
  0 <= v <= 255 -> (off + 1 <= length b)%nat ->
  writeUInt8 v off b = Ok (<[off := v]> b).
Proof.
  intros Hv Hoff. unfold writeUInt8, fits.
  destruct (Z.leb_spec 0 v); [|lia].
  destruct (Z.leb_spec v 255); [|lia].
  destruct (Nat.leb_spec (off + 1) (length b)); [reflexivity|lia].
Qed.

(** Lists of a known length, as explicit cells. *)
Lemma list_length_4 {A} (l : list A) :
  length l = 4%nat -> exists a b c d, l = [a; b; c; d].
Proof.
  destruct l as [|a [|b [|c [|d [|]]]]]; simpl; intros H; try discriminate.
  by exists a, b, c, d.
Qed.

Lemma list_length_12 {A} (l : list A) :
  length l = 12%nat ->
  exists t0 t1 t2 t3 t4 t5 t6 t7 t8 t9 t10 t11,
    l = [t0; t1; t2; t3; t4; t5; t6; t7; t8; t9; t10; t11].
Proof.
  intros H.
  do 12 (destruct l as [|? l]; [discriminate H|]).
  destruct l; [|discriminate H].
  repeat eexists.
Qed.

Lemma isByte_lit (z : Z) : (0 <=? z) && (z <? 256) = true -> isByte z.
Proof.
  intros H. apply andb_prop in H as [H1 H2].
  split; [now apply Z.leb_le|now apply Z.ltb_lt].
Qed.

Ltac solve_byte :=
  repeat apply lxor_byte;
  first [ assumption | apply isByte_lit; reflexivity ].

(** Rewrites the innermost [buf[i] ^= v], whose buffer is given by its cells. *)
Ltac xor_step :=
  match goal with
  | |- context [xorAssign ?i ?v (?h :: ?t)] =>
      erewrite (xorAssign_byte i v _ (h :: t));
      [ | reflexivity | solve_byte | solve_byte ]
  end;
  cbn [insert list_insert].

Lemma xorCookie_bytes (a b c d : Z) :
  isByte a -> isByte b -> isByte c -> isByte d ->
  xorCookie [a; b; c; d] =
  [Z.lxor a 0x21; Z.lxor b 0x12; Z.lxor c 0xA4; Z.lxor d 0x42].
Proof.
  intros Ha Hb Hc Hd. unfold xorCookie.
  cbn [seq foldl].
  change (cookieByte 0) with 0x21. change (cookieByte 1) with 0x12.
  change (cookieByte 2) with 0xA4. change (cookieByte 3) with 0x42.
  do 4 xor_step.
  reflexivity.
Qed.

Ltac split_buffer H :=
  unfold isBuffer in H;
  repeat (apply Forall_cons in H; destruct H as [? H]).

Ltac eval_closed t :=
  let r := eval vm_compute in t in change t with r.

Lemma Buffer_from_bytes (l : list Z) : isBuffer l -> Buffer_from l = l.
Proof.
  unfold Buffer_from. induction 1 as [|x l Hx _ IH]; [reflexivity|].
  cbn [fmap list_fmap] in *. now rewrite toUint8_byte, IH.
Qed.

Lemma Refactored_xorTransactionId_bytes
    (a b c d t0 t1 t2 t3 : Z) (rest : list Z) :
  isByte a -> isByte b -> isByte c -> isByte d ->
  isByte t0 -> isByte t1 -> isByte t2 -> isByte t3 ->
  Refactored.xorTransactionId (t0 :: t1 :: t2 :: t3 :: rest) [a; b; c; d] =
  [Z.lxor a t0; Z.lxor b t1; Z.lxor c t2; Z.lxor d t3].
Proof.
  intros. unfold Refactored.xorTransactionId.
  replace (length (t0 :: t1 :: t2 :: t3 :: rest) `min` 4)%nat with 4%nat
    by (cbn [length]; lia).
  cbn [seq foldl]. unfold getIndex. cbn [lookup list_lookup default].
  do 4 xor_step.
  reflexivity.
Qed.

Lemma Original_xorTransactionId_bytes
    (a b c d t0 t1 t2 t3 t4 t5 t6 t7 t8 t9 t10 t11 : Z) :
  isByte a -> isByte b -> isByte c -> isByte d ->
  isBuffer [t0; t1; t2; t3; t4; t5; t6; t7; t8; t9; t10; t11] ->
  Original.xorTransactionId [t0; t1; t2; t3; t4; t5; t6; t7; t8; t9; t10; t11]
                            [a; b; c; d] =
  [Z.lxor (Z.lxor (Z.lxor a t0) t4) t8; Z.lxor (Z.lxor (Z.lxor b t1) t5) t9;
   Z.lxor (Z.lxor (Z.lxor c t2) t6) t10; Z.lxor (Z.lxor (Z.lxor d t3) t7) t11].
Proof.
  intros Ha Hb Hc Hd Ht. split_buffer Ht.
  unfold Original.xorTransactionId.
  cbn [length seq foldl]. unfold getIndex. cbn [lookup list_lookup default].
  change (0 mod 4)%nat with 0%nat. change (1 mod 4)%nat with 1%nat.
  change (2 mod 4)%nat with 2%nat. change (3 mod 4)%nat with 3%nat.
  change (4 mod 4)%nat with 0%nat. change (5 mod 4)%nat with 1%nat.
  change (6 mod 4)%nat with 2%nat. change (7 mod 4)%nat with 3%nat.
  change (8 mod 4)%nat with 0%nat. change (9 mod 4)%nat with 1%nat.
  change (10 mod 4)%nat with 2%nat. change (11 mod 4)%nat with 3%nat.
  do 12 xor_step.
  reflexivity.
Qed.

(** The class-based variants emit the attribute exactly as laid out by the
    specification. *)
Lemma Refactored_createXorMappedAddress_spec (port : Z) (octets tid : list Z) :
  0 <= port <= 65535 ->
  length octets = 4%nat -> isBuffer octets ->
  length tid = 12%nat -> isBuffer tid ->
  Refactored.createXorMappedAddress 1 port octets tid
  = Ok (specXorMappedAddress port octets tid).
Proof.
  intros Hp Hlo Ho Hlt Ht.
  destruct (list_length_4 _ Hlo) as (a & b & c & d & ->).
  destruct (list_length_12 _ Hlt)
    as (t0 & t1 & t2 & t3 & t4 & t5 & t6 & t7 & t8 & t9 & t10 & t11 & ->).
  unfold Refactored.createXorMappedAddress.
  rewrite Buffer_from_bytes by assumption.
  split_buffer Ho. split_buffer Ht.
  rewrite xorCookie_bytes by assumption.
  rewrite Refactored_xorTransactionId_bytes by solve_byte.
  destruct (xorPort_range port Hp) as [-> Hx].
  eval_closed (writeUInt16BE STUN_ATTR_XOR_MAPPED_ADDRESS 0 (alloc 12)).
  cbn [rbind].
  match goal with |- context [writeUInt16BE 8 2 ?b] =>
    eval_closed (writeUInt16BE 8 2 b) end.
  cbn [rbind].
  match goal with |- context [writeUInt8 0 4 ?b] =>
    eval_closed (writeUInt8 0 4 b) end.
  cbn [rbind].
  match goal with |- context [writeUInt8 1 5 ?b] =>
    eval_closed (writeUInt8 1 5 b) end.
  cbn [rbind].
  rewrite writeUInt16BE_ok by (cbn [length]; lia).
  cbn [rbind insert list_insert].
  reflexivity.
Qed.

(** The original script emits the cyclic fold instead. *)
Lemma Original_createXorMappedAddress_spec (port : Z) (octets tid : list Z) :
  0 <= port <= 65535 ->
  length octets = 4%nat -> isBuffer octets ->
  length tid = 12%nat -> isBuffer tid ->
  Original.createXorMappedAddress 1 port octets tid
  = Ok (cyclicXorMappedAddress port octets tid).
Proof.
  intros Hp Hlo Ho Hlt Ht.
  destruct (list_length_4 _ Hlo) as (a & b & c & d & ->).
  destruct (list_length_12 _ Hlt)
    as (t0 & t1 & t2 & t3 & t4 & t5 & t6 & t7 & t8 & t9 & t10 & t11 & ->).
  unfold Original.createXorMappedAddress.
  rewrite Buffer_from_bytes by assumption.
  split_buffer Ho.
  rewrite xorCookie_bytes by assumption.
  rewrite Original_xorTransactionId_bytes by solve_byte.
  destruct (xorPort_range port Hp) as [-> Hx].
  eval_closed (writeUInt16BE STUN_ATTR_XOR_MAPPED_ADDRESS 0 (alloc 20)).
  cbn [rbind Nat.add].
  match goal with |- context [writeUInt8 0 4 ?b] =>
    eval_closed (writeUInt8 0 4 b) end.
  cbn [rbind].
  match goal with |- context [writeUInt8 1 5 ?b] =>
    eval_closed (writeUInt8 1 5 b) end.
  cbn [rbind].
  rewrite writeUInt16BE_ok by (cbn [length]; lia).
  cbn [rbind insert list_insert].
  unfold copy. cbn [length Nat.min Nat.sub Nat.add take drop app].
  change (Z.of_nat 8) with 8.
  rewrite writeUInt16BE_ok by (cbn [length]; lia).
  cbn [rbind insert list_insert].
  reflexivity.
Qed.

(** ** The encoder: layout, sensitivity, totality *)

Lemma Ok_inj {A} (a b : A) : Ok a = Ok b -> a = b.
Proof. congruence. Qed.

Lemma lxor_inj_l (a b k : Z) : Z.lxor a k = Z.lxor b k -> a = b.
Proof.
  intros H. apply (f_equal (fun z => Z.lxor z k)) in H.
  now rewrite !Z.lxor_assoc, !Z.lxor_nilpotent, !Z.lxor_0_r in H.
Qed.

Lemma lxor_inj_r (a b k : Z) : Z.lxor k a = Z.lxor k b -> a = b.
Proof. rewrite !(Z.lxor_comm k). apply lxor_inj_l. Qed.

Lemma be16_inj (x y : Z) : x / 256 = y / 256 -> x mod 256 = y mod 256 -> x = y.
Proof.
  intros Hd Hm.
  rewrite (Z.div_mod x 256), (Z.div_mod y 256) by lia. now rewrite Hd, Hm.
Qed.

Ltac spec_cells :=
  unfold specXorMappedAddress, cyclicXorMappedAddress, cyclicXorAddress,
    specXorAddress, cookieBytes;
  cbn [zip_with take drop app].

Ltac cancel_xor :=
  repeat match goal with
         | H : Z.lxor _ ?k = Z.lxor _ ?k |- _ => apply lxor_inj_l in H
         | H : Z.lxor ?k _ = Z.lxor ?k _ |- _ => apply lxor_inj_r in H
         end.

(** The mapped port can be read back from either layout. *)
Lemma spec_port_inj (port port' : Z) (o t o' t' : list Z) :
  specXorMappedAddress port o t = specXorMappedAddress port' o' t' ->
  port = port'.
Proof.
  unfold specXorMappedAddress. cbn [app]. intros H.
  injection H as Hd Hm _. apply (lxor_inj_l _ _ 0x2112).
  now apply be16_inj.
Qed.

Lemma cyclic_port_inj (port port' : Z) (o t o' t' : list Z) :
  cyclicXorMappedAddress port o t = cyclicXorMappedAddress port' o' t' ->
  port = port'.
Proof.
  unfold cyclicXorMappedAddress. cbn [app]. intros H.
  injection H as Hd Hm _. apply (lxor_inj_l _ _ 0x2112).
  now apply be16_inj.
Qed.

Lemma differAt_length (i : nat) (l l' : list Z) :
  differAt i l l' -> length l' = length l.
Proof. intros (x & v & _ & _ & _ & ->). apply length_insert. Qed.

Lemma differAt_isBuffer (i : nat) (l l' : list Z) :
  differAt i l l' -> isBuffer l -> isBuffer l'.
Proof.
  intros (x & v & _ & _ & Hv & ->) Hl. unfold isBuffer.
  now apply Forall_insert.
Qed.

(** Changing one address octet changes the address bytes of both layouts. *)
Lemma spec_octet_sensitive (i : nat) (port : Z) (o o' t : list Z) :
  length o = 4%nat -> length t = 12%nat -> differAt i o o' ->
  specXorMappedAddress port o t <> specXorMappedAddress port o' t /\
  cyclicXorMappedAddress port o t <> cyclicXorMappedAddress port o' t.
Proof.
  intros Hlo Hlt (x & v & Hx & Hne & _ & ->).
  destruct (list_length_4 _ Hlo) as (a & b & c & d & ->).
  destruct (list_length_12 _ Hlt)
    as (t0 & t1 & t2 & t3 & t4 & t5 & t6 & t7 & t8 & t9 & t10 & t11 & ->).
  do 4 (destruct i as [|i];
        [ injection Hx as ->; cbn [insert list_insert]; spec_cells;
          split; intros H; injection H as H; cancel_xor; congruence | ]).
  discriminate Hx.
Qed.

(** Changing one transaction-id byte always changes the cyclic layout; it
    changes the specified layout for the first four bytes only. *)
Lemma cyclic_tid_sensitive (i : nat) (port : Z) (o t t' : list Z) :
  length o = 4%nat -> length t = 12%nat -> differAt i t t' ->
  cyclicXorMappedAddress port o t <> cyclicXorMappedAddress port o t'.
Proof.
  intros Hlo Hlt (x & v & Hx & Hne & _ & ->).
  destruct (list_length_4 _ Hlo) as (a & b & c & d & ->).
  destruct (list_length_12 _ Hlt)
    as (t0 & t1 & t2 & t3 & t4 & t5 & t6 & t7 & t8 & t9 & t10 & t11 & ->).
  do 12 (destruct i as [|i];
         [ injection Hx as ->; cbn [insert list_insert]; spec_cells;
           intros H; injection H as H; cancel_xor; congruence | ]).
  discriminate Hx.
Qed.

Lemma spec_tid_sensitive (i : nat) (port : Z) (o t t' : list Z) :
  length o = 4%nat -> length t = 12%nat -> (i < 4)%nat -> differAt i t t' ->
  specXorMappedAddress port o t <> specXorMappedAddress port o t'.
Proof.
  intros Hlo Hlt Hi (x & v & Hx & Hne & _ & ->).
  destruct (list_length_4 _ Hlo) as (a & b & c & d & ->).
  destruct (list_length_12 _ Hlt)
    as (t0 & t1 & t2 & t3 & t4 & t5 & t6 & t7 & t8 & t9 & t10 & t11 & ->).
  do 4 (destruct i as [|i];
        [ injection Hx as ->; cbn [insert list_insert]; spec_cells;
          intros H; injection H as H; cancel_xor; congruence | ]).
  lia.
Qed.

Lemma spec_tid_insensitive (i : nat) (port v : Z) (o t : list Z) :
  (4 <= i)%nat ->
  specXorMappedAddress port o (<[i := v]> t) = specXorMappedAddress port o t.
Proof.
  intros Hi. unfold specXorMappedAddress, specXorAddress.
  now rewrite take_insert_ge by lia.
Qed.

Section Encoder.

Variables (port : Z) (octets tid : list Z).
Hypothesis Hport : 0 <= port <= 65535.
Hypothesis Hoctets : length octets = 4%nat /\ isBuffer octets.
Hypothesis Htid : length tid = 12%nat /\ isBuffer tid.

Lemma Refactored_encode :
  Refactored.createXorMappedAddress 1 port octets tid
  = Ok (specXorMappedAddress port octets tid).
Proof.
  destruct Hoctets, Htid. now apply Refactored_createXorMappedAddress_spec.
Qed.

Lemma Original_encode :
  Original.createXorMappedAddress 1 port octets tid
  = Ok (cyclicXorMappedAddress port octets tid).
Proof.
  destruct Hoctets, Htid. now apply Original_createXorMappedAddress_spec.
Qed.

End Encoder.


Lemma isBuffer_lit (l : list Z) :
  forallb (fun z => (0 <=? z) && (z <? 256)) l = true -> isBuffer l.
Proof.
  unfold isBuffer. rewrite forallb_forall, Forall_forall.
  intros H x Hx. apply isByte_lit, H. now apply list_elem_of_In.
Qed.

Lemma sample_valid :
  0 <= samplePort <= 65535 /\
  (length sampleOctets = 4%nat /\ isBuffer sampleOctets) /\
  (length sampleTid = 12%nat /\ isBuffer sampleTid).
Proof.
  split; [unfold samplePort; lia|].
  split; (split; [reflexivity|now apply isBuffer_lit]).
Qed.

(** C1, as amended.  With family 1, a port in 0..65535, four address octets
    and a 12-byte transaction id, [createXorMappedAddress] of the class-based
    variants returns exactly the 12 bytes of the specified layout (type
    0x0020, length 8, reserved 0, family 1, port XOR 0x2112 big-endian, octet
    [i] XOR cookie byte [i] XOR transaction-id byte [i], first four
    transaction-id bytes only); [createXorMappedAddress] of the original
    script returns the same first eight bytes and folds all twelve
    transaction-id bytes cyclically into the address. *)
Theorem C1_createXorMappedAddress_layout (port : Z) (octets tid : list Z) :
  0 <= port <= 65535 ->
  length octets = 4%nat /\ isBuffer octets ->
  length tid = 12%nat /\ isBuffer tid ->
  Refactored.createXorMappedAddress 1 port octets tid
    = Ok (specXorMappedAddress port octets tid) /\
  length (specXorMappedAddress port octets tid) = 12%nat /\
  Original.createXorMappedAddress 1 port octets tid
    = Ok (cyclicXorMappedAddress port octets tid) /\
  take 8 (cyclicXorMappedAddress port octets tid)
    = take 8 (specXorMappedAddress port octets tid).
Proof.
  intros Hp Ho Ht.
  split; [now apply Refactored_encode|].
  split.
  { destruct Ho as [Hlo _], Ht as [Hlt _].
    destruct (list_length_4 _ Hlo) as (a & b & c & d & ->).
    destruct (list_length_12 _ Hlt)
      as (t0 & t1 & t2 & t3 & t4 & t5 & t6 & t7 & t8 & t9 & t10 & t11 & ->).
    reflexivity. }
  split; [now apply Original_encode|].
  reflexivity.
Qed.

Lemma C1_layout_witness :
  Refactored.createXorMappedAddress 1 samplePort sampleOctets sampleTid
    = Ok [0; 32; 0; 8; 0; 1; 245; 35; 234; 3; 247; 118] /\
  Original.createXorMappedAddress 1 samplePort sampleOctets sampleTid
    = Ok [0; 32; 0; 8; 0; 1; 245; 35; 38; 207; 59; 186].
Proof.
  destruct sample_valid as (Hp & Ho & Ht).
  destruct (C1_createXorMappedAddress_layout samplePort sampleOctets sampleTid
              Hp Ho Ht) as (HR & _ & HO & _).
  split; [exact HR|exact HO].
Defined.

(** C1 as stated fails on the original script: at the sample request the
    address bytes it emits are not those of the specified layout, because
    transaction-id bytes 4..11 take part. *)
Lemma C1_counterexample_original_cyclic :
  exists out,
    Original.createXorMappedAddress 1 samplePort sampleOctets sampleTid = Ok out /\
    out <> specXorMappedAddress samplePort sampleOctets sampleTid.
Proof.
  exists [0; 32; 0; 8; 0; 1; 245; 35; 38; 207; 59; 186].
  split; [vm_compute; reflexivity|].
  vm_compute. discriminate.
Qed.

(** C8, as amended.  The encoder is a function of its inputs, and for valid
    inputs its output changes with the port, with any single address octet
    and with any single one of the first four transaction-id bytes; a change
    confined to transaction-id bytes 4..11 leaves the output of the
    class-based variants unchanged, while the original script, which folds
    all twelve bytes, is sensitive to each of them. *)
Theorem C8_encoder_sensitivity (port : Z) (octets tid : list Z) :
  0 <= port <= 65535 ->
  length octets = 4%nat /\ isBuffer octets ->
  length tid = 12%nat /\ isBuffer tid ->
  (forall port' octets' tid',
      port' = port -> octets' = octets -> tid' = tid ->
      Refactored.createXorMappedAddress 1 port' octets' tid'
        = Refactored.createXorMappedAddress 1 port octets tid /\
      Original.createXorMappedAddress 1 port' octets' tid'
        = Original.createXorMappedAddress 1 port octets tid) /\
  (forall port',
      0 <= port' <= 65535 -> port' <> port ->
      Refactored.createXorMappedAddress 1 port' octets tid
        <> Refactored.createXorMappedAddress 1 port octets tid /\
      Original.createXorMappedAddress 1 port' octets tid
        <> Original.createXorMappedAddress 1 port octets tid) /\
  (forall i octets',
      differAt i octets octets' ->
      Refactored.createXorMappedAddress 1 port octets' tid
        <> Refactored.createXorMappedAddress 1 port octets tid /\
      Original.createXorMappedAddress 1 port octets' tid
        <> Original.createXorMappedAddress 1 port octets tid) /\
  (forall i tid',
      differAt i tid tid' ->
      ((i < 4)%nat ->
       Refactored.createXorMappedAddress 1 port octets tid'
         <> Refactored.createXorMappedAddress 1 port octets tid) /\
      ((4 <= i)%nat ->
       Refactored.createXorMappedAddress 1 port octets tid'
         = Refactored.createXorMappedAddress 1 port octets tid) /\
      Original.createXorMappedAddress 1 port octets tid'
        <> Original.createXorMappedAddress 1 port octets tid).
Proof.
  intros Hp Ho Ht.
  pose proof (Refactored_encode port octets tid Hp Ho Ht) as HR.
  pose proof (Original_encode port octets tid Hp Ho Ht) as HO.
  split; [intros ? ? ? -> -> ->; split; reflexivity|].
  split.
  { intros port' Hp' Hne.
    rewrite HR, HO, (Refactored_encode port' octets tid),
      (Original_encode port' octets tid) by assumption.
    split; intros H; apply Ok_inj in H; apply Hne.
    - eapply spec_port_inj, H.
    - eapply cyclic_port_inj, H. }
  split.
  { intros i octets' Hd.
    assert (Ho' : length octets' = 4%nat /\ isBuffer octets').
    { split; [rewrite (differAt_length _ _ _ Hd); tauto|].
      eapply differAt_isBuffer; [exact Hd|tauto]. }
    rewrite HR, HO, (Refactored_encode port octets' tid),
      (Original_encode port octets' tid) by assumption.
    destruct (spec_octet_sensitive i port octets octets' tid) as [H1 H2];
      [tauto..|].
    split; intros H; apply Ok_inj in H; congruence. }
  intros i tid' Hd.
  assert (Ht' : length tid' = 12%nat /\ isBuffer tid').
  { split; [rewrite (differAt_length _ _ _ Hd); tauto|].
    eapply differAt_isBuffer; [exact Hd|tauto]. }
  rewrite HR, HO, (Refactored_encode port octets tid'),
    (Original_encode port octets tid') by assumption.
  split; [|split].
  - intros Hi H. apply Ok_inj in H.
    eapply (spec_tid_sensitive i port octets tid tid'); [tauto..|].
    congruence.
  - intros Hi. destruct Hd as (x & v & _ & _ & _ & ->).
    now rewrite spec_tid_insensitive.
  - intros H. apply Ok_inj in H.
    eapply (cyclic_tid_sensitive i port octets tid tid'); [tauto..|].
    congruence.
Qed.

Lemma C8_sensitivity_witness :
  Refactored.createXorMappedAddress 1 samplePort sampleOctets
      (<[11%nat := 0xBC]> sampleTid)
    = Refactored.createXorMappedAddress 1 samplePort sampleOctets sampleTid /\
  Original.createXorMappedAddress 1 samplePort sampleOctets
      (<[11%nat := 0xBC]> sampleTid)
    <> Original.createXorMappedAddress 1 samplePort sampleOctets sampleTid.
Proof.
  destruct sample_valid as (Hp & Ho & Ht).
  destruct (C8_encoder_sensitivity samplePort sampleOctets sampleTid Hp Ho Ht)
    as (_ & _ & _ & H).
  destruct (H 11%nat (<[11%nat := 0xBC]> sampleTid)) as (_ & HR & HO).
  { exists 0xBB, 0xBC. repeat split; try reflexivity; lia. }
  split; [apply HR; lia|exact HO].
Defined.

(** C8 as stated fails on the class-based variants: two transaction ids that
    differ in byte 4 only give the same attribute. *)
Lemma C8_counterexample_tid_byte4 :
  differAt 4 sampleTid (<[4%nat := 0x45]> sampleTid) /\
  Refactored.createXorMappedAddress 1 samplePort sampleOctets sampleTid
  = Refactored.createXorMappedAddress 1 samplePort sampleOctets
      (<[4%nat := 0x45]> sampleTid).
Proof.
  split.
  - exists 0x44, 0x45. repeat split; try reflexivity; lia.
  - vm_compute. reflexivity.
Qed.

Lemma isByte_div256 (x : Z) : 0 <= x <= 65535 -> isByte (x / 256).
Proof. unfold isByte. intros. split; [apply Z.div_pos; lia|apply Z.div_lt_upper_bound; lia]. Qed.

Lemma isByte_mod256 (x : Z) : isByte (x mod 256).
Proof. unfold isByte. apply Z.mod_pos_bound. lia. Qed.

Lemma cyclic_isBuffer (port : Z) (octets tid : list Z) :
  0 <= port <= 65535 ->
  length octets = 4%nat /\ isBuffer octets ->
  length tid = 12%nat /\ isBuffer tid ->
  length (cyclicXorMappedAddress port octets tid) = 12%nat /\
  isBuffer (cyclicXorMappedAddress port octets tid) /\
  length (specXorMappedAddress port octets tid) = 12%nat /\
  isBuffer (specXorMappedAddress port octets tid).
Proof.
  intros Hp [Hlo Ho] [Hlt Ht].
  destruct (list_length_4 _ Hlo) as (a & b & c & d & ->).
  destruct (list_length_12 _ Hlt)
    as (t0 & t1 & t2 & t3 & t4 & t5 & t6 & t7 & t8 & t9 & t10 & t11 & ->).
  split_buffer Ho. split_buffer Ht.
  destruct (xorPort_range port Hp) as [_ Hx].
  spec_cells. unfold isBuffer.
  repeat split; try reflexivity;
    repeat (apply Forall_cons; split);
    try apply Forall_nil;
    first [ exact I | solve_byte | now apply isByte_div256 | apply isByte_mod256 ].
Qed.

(** C9.  For a port in 0..65535 the value [port ^ (STUN_MAGIC_COOKIE >> 16)]
    written by [writeUInt16BE] is again in 0..65535, so that no write raises
    a range error, and for four address octets and a 12-byte transaction id
    [createXorMappedAddress] returns, in every variant, a buffer of exactly
    12 bytes; the address buffer its loops index (by [i] below 4, or by
    [i % 4]) has four cells. *)
Theorem C9_createXorMappedAddress_total (port : Z) (octets tid : list Z) :
  0 <= port <= 65535 ->
  length octets = 4%nat /\ isBuffer octets ->
  length tid = 12%nat /\ isBuffer tid ->
  0 <= js_xor port (js_sar STUN_MAGIC_COOKIE 16) <= 65535 /\
  length (Buffer_from octets) = 4%nat /\
  (exists buf, Refactored.createXorMappedAddress 1 port octets tid = Ok buf /\
               length buf = 12%nat /\ isBuffer buf) /\
  (exists buf, Original.createXorMappedAddress 1 port octets tid = Ok buf /\
               length buf = 12%nat /\ isBuffer buf).
Proof.
  intros Hp Ho Ht.
  destruct (xorPort_range port Hp) as [-> Hx].
  destruct (cyclic_isBuffer port octets tid Hp Ho Ht) as (H1 & H2 & H3 & H4).
  split; [exact Hx|].
  split; [unfold Buffer_from; rewrite length_fmap; tauto|].
  split.
  - exists (specXorMappedAddress port octets tid).
    split; [now apply Refactored_encode|]. now split.
  - exists (cyclicXorMappedAddress port octets tid).
    split; [now apply Original_encode|]. now split.
Qed.

Lemma C9_total_witness :
  exists buf,
    Refactored.createXorMappedAddress 1 samplePort sampleOctets sampleTid = Ok buf /\
    length buf = 12%nat /\ isBuffer buf.
Proof.
  destruct sample_valid as (Hp & Ho & Ht).
  exact (proj1 (proj2 (proj2 (C9_createXorMappedAddress_total
                                samplePort sampleOctets sampleTid Hp Ho Ht)))).
Defined.

(** ** The decoder *)

Lemma at_least_20 (d : Buffer) :
  (20 <= length d)%nat ->
  exists b0 b1 b2 b3 b4 b5 b6 b7 b8 b9 b10 b11 b12 b13 b14 b15 b16 b17 b18 b19 rest,
    d = b0 :: b1 :: b2 :: b3 :: b4 :: b5 :: b6 :: b7 :: b8 :: b9 :: b10 :: b11
        :: b12 :: b13 :: b14 :: b15 :: b16 :: b17 :: b18 :: b19 :: rest.
Proof.
  intros H.
  do 20 (destruct d as [|? d]; [cbn [length] in H; lia|]).
  repeat eexists.
Qed.

(** The reads of [parseStunMessage] are the big-endian fields of the header. *)
Lemma header_reads (d : Buffer) :
  (20 <= length d)%nat ->
  readUInt16BE 0 d = Ok (bigEndian (slice 0 2 d)) /\
  readUInt16BE 2 d = Ok (bigEndian (slice 2 4 d)) /\
  readUInt32BE 4 d = Ok (bigEndian (slice 4 8 d)).
Proof.
  intros H.
  destruct (at_least_20 d H)
    as (b0 & b1 & b2 & b3 & b4 & b5 & b6 & b7 & b8 & b9 & b10 & b11 & b12 & b13
        & b14 & b15 & b16 & b17 & b18 & b19 & rest & ->).
  unfold readUInt16BE, readUInt32BE, bigEndian, slice.
  cbn [lookup list_lookup Nat.sub take drop foldl].
  repeat split; f_equal; lia.
Qed.

(** [parseStunMessage] never raises, and it is the specified decoder with the
    kind of failure forgotten: every failure is the same [null]. *)
Lemma parseStunMessage_decode (d : Buffer) :
  parseStunMessage d = Ok (forgetError (decode d)).
Proof.
  unfold parseStunMessage, decode.
  destruct (Nat.ltb_spec (length d) 20) as [Hlt|Hge].
  { destruct (decide (length d < 20)%nat); [reflexivity|lia]. }
  destruct (decide (length d < 20)%nat); [lia|].
  destruct (header_reads d Hge) as (-> & -> & ->).
  cbn [rbind].
  unfold STUN_MAGIC_COOKIE.
  destruct (Z.eqb_spec (bigEndian (slice 4 8 d)) 0x2112A442);
    destruct (decide (bigEndian (slice 4 8 d) <> 0x2112A442));
    cbn [negb forgetError]; try reflexivity; try lia.
  destruct (Z.eqb_spec (Z.of_nat (length d)) (20 + bigEndian (slice 2 4 d)));
    destruct (decide (Z.of_nat (length d) <> 20 + bigEndian (slice 2 4 d)));
    cbn [negb forgetError]; try reflexivity; lia.
Qed.


Lemma slice_lookup (s e i : nat) (d : Buffer) :
  (i < e - s)%nat -> slice s e d !! i = d !! (s + i)%nat.
Proof.
  intros Hi. unfold slice. rewrite lookup_take_lt by exact Hi.
  apply lookup_drop.
Qed.

(** C5.  A datagram of at least 20 bytes, whose bytes 4-7 are the magic
    cookie and whose length is 20 plus the body length declared in bytes 2-3,
    is decoded: [parseStunMessage] returns a message whose transaction id is
    bytes 8-19 of the datagram and whose attributes are the datagram from
    byte 20 on. *)
Theorem C5_parseStunMessage_accepts (d : Buffer) :
  (20 <= length d)%nat ->
  bigEndian (slice 4 8 d) = 0x2112A442 ->
  Z.of_nat (length d) = 20 + bigEndian (slice 2 4 d) ->
  exists m,
    parseStunMessage d = Ok (Some m) /\
    decode d = inr m /\
    msg_type m = bigEndian (slice 0 2 d) /\
    msg_length m = bigEndian (slice 2 4 d) /\
    length (transactionId m) = 12%nat /\
    (forall i, (i < 12)%nat -> transactionId m !! i = d !! (8 + i)%nat) /\
    attributes m = drop 20 d.
Proof.
  intros Hlen Hcookie Hbody.
  exists {| msg_type := bigEndian (slice 0 2 d);
            msg_length := bigEndian (slice 2 4 d);
            transactionId := slice 8 20 d;
            attributes := drop 20 d |}.
  assert (Hdec : decode d = inr {| msg_type := bigEndian (slice 0 2 d);
                                   msg_length := bigEndian (slice 2 4 d);
                                   transactionId := slice 8 20 d;
                                   attributes := drop 20 d |}).
  { unfold decode.
    destruct (decide (length d < 20)%nat); [lia|].
    destruct (decide (bigEndian (slice 4 8 d) <> 0x2112A442)); [contradiction|].
    destruct (decide (Z.of_nat (length d) <> 20 + bigEndian (slice 2 4 d)));
      [contradiction|reflexivity]. }
  split; [now rewrite parseStunMessage_decode, Hdec|].
  split; [exact Hdec|].
  cbn [msg_type msg_length transactionId attributes].
  repeat split.
  - unfold slice. rewrite length_take, length_drop. lia.
  - intros i Hi. apply slice_lookup. lia.
Qed.

Lemma C5_accepts_witness :
  exists m, parseStunMessage sampleRequest = Ok (Some m) /\
            transactionId m = sampleTid /\ attributes m = [].
Proof.
  destruct (C5_parseStunMessage_accepts sampleRequest)
    as (m & Hm & _ & _ & _ & _ & _ & _);
    [vm_compute; lia|reflexivity|reflexivity|].
  exists m. split; [exact Hm|].
  vm_compute in Hm. injection Hm as <-. split; reflexivity.
Defined.

(** C6, as amended.  Every datagram whose bytes 4-7 differ from the magic
    cookie is rejected: [parseStunMessage] returns [null], whatever its other
    fields.  For a datagram of at least 20 bytes the rejection is that of the
    cookie check, also when the declared length is wrong; a datagram of fewer
    than 20 bytes is rejected by the length guard, which comes first. *)
Theorem C6_parseStunMessage_bad_cookie (d : Buffer) :
  bigEndian (slice 4 8 d) <> 0x2112A442 ->
  parseStunMessage d = Ok None /\
  ((20 <= length d)%nat -> decode d = inl BadCookie) /\
  ((length d < 20)%nat -> decode d = inl TooShort).
Proof.
  intros Hc.
  assert (H : ((20 <= length d)%nat -> decode d = inl BadCookie) /\
              ((length d < 20)%nat -> decode d = inl TooShort)).
  { unfold decode. split; intros Hl.
    - destruct (decide (length d < 20)%nat); [lia|].
      destruct (decide (bigEndian (slice 4 8 d) <> 0x2112A442));
        [reflexivity|contradiction].
    - destruct (decide (length d < 20)%nat); [reflexivity|lia]. }
  split; [|exact H].
  rewrite parseStunMessage_decode.
  destruct H as [H1 H2].
  destruct (Nat.le_gt_cases 20 (length d)) as [Hl|Hl].
  - now rewrite (H1 Hl).
  - now rewrite (H2 Hl).
Qed.

Lemma C6_bad_cookie_witness :
  parseStunMessage (<[4%nat := 0x20]> sampleRequest) = Ok None /\
  decode (<[4%nat := 0x20]> sampleRequest) = inl BadCookie.
Proof.
  destruct (C6_parseStunMessage_bad_cookie (<[4%nat := 0x20]> sampleRequest))
    as (H1 & H2 & _); [vm_compute; discriminate|].
  split; [exact H1|apply H2; vm_compute; lia].
Defined.

(** C6 as stated fails below 20 bytes: a 19-byte datagram whose bytes 4-7 are
    not the cookie is stopped by the length guard, before the cookie is read,
    and the [null] it gets is the one a 19-byte datagram with the right cookie
    gets. *)
Lemma C6_counterexample_short_datagram :
  length shortDatagram = 19%nat /\
  bigEndian (slice 4 8 shortDatagram) <> 0x2112A442 /\
  decode shortDatagram = inl TooShort /\
  parseStunMessage shortDatagram = Ok None /\
  parseStunMessage (take 19 sampleRequest) = parseStunMessage shortDatagram.
Proof.
  repeat split; try reflexivity.
  vm_compute. discriminate.
Qed.

(** ** The response assembler *)


Lemma concat_length_sum (ls : list (list Z)) :
  length (concat ls) = sum_list (length <$> ls).
Proof.
  induction ls as [|l ls IH]; [reflexivity|].
  cbn [concat fmap list_fmap sum_list sum_list_with].
  rewrite length_app. f_equal. exact IH.
Qed.

Lemma writeUInt32BE_ok (v : Z) (off : nat) (b : Buffer) :
  0 <= v <= 4294967295 -> (off + 4 <= length b)%nat ->
  writeUInt32BE v off b
  = Ok (<[S (S (S off)) := v mod 256]>
       (<[S (S off) := (v / 256) mod 256]>
       (<[S off := (v / 65536) mod 256]>
       (<[off := v / 16777216]> b)))).
Proof.
  intros Hv Hoff. unfold writeUInt32BE, fits.
  destruct (Z.leb_spec 0 v); [|lia].
  destruct (Z.leb_spec v 4294967295); [|lia].
  destruct (Nat.leb_spec (off + 4) (length b)); [reflexivity|lia].
Qed.

Lemma createStunResponse_spec (type : Z) (tid : Buffer) (attrs : list Buffer) :
  0 <= type <= 65535 ->
  length tid = 12%nat ->
  Z.of_nat (sum_list (length <$> attrs)) <= 65535 ->
  createStunResponse type tid attrs = Ok (specResponse type tid attrs).
Proof.
  intros Hty Htid Hsum.
  destruct (list_length_12 _ Htid)
    as (t0 & t1 & t2 & t3 & t4 & t5 & t6 & t7 & t8 & t9 & t10 & t11 & ->).
  unfold createStunResponse, specResponse, Buffer_concat.
  rewrite concat_length_sum.
  set (n := Z.of_nat (sum_list (length <$> attrs))) in *.
  unfold alloc. cbn [replicate].
  rewrite writeUInt16BE_ok by (cbn [length]; lia).
  cbn [rbind insert list_insert].
  rewrite writeUInt16BE_ok by (cbn [length]; lia).
  cbn [rbind insert list_insert].
  rewrite writeUInt32BE_ok by (cbn [length]; unfold STUN_MAGIC_COOKIE; lia).
  cbn [rbind insert list_insert].
  unfold copy. cbn [length Nat.min Nat.sub Nat.add take drop app concat].
  rewrite app_nil_r.
  reflexivity.
Qed.

(** The fields of the specified response, read back. *)
Lemma specResponse_fields (type : Z) (tid : Buffer) (attrs : list Buffer) :
  length tid = 12%nat ->
  bigEndian (slice 0 2 (specResponse type tid attrs)) = type /\
  bigEndian (slice 2 4 (specResponse type tid attrs))
    = Z.of_nat (sum_list (length <$> attrs)) /\
  bigEndian (slice 4 8 (specResponse type tid attrs)) = 0x2112A442 /\
  slice 8 20 (specResponse type tid attrs) = tid /\
  drop 20 (specResponse type tid attrs) = concat attrs.
Proof.
  intros Htid.
  destruct (list_length_12 _ Htid)
    as (t0 & t1 & t2 & t3 & t4 & t5 & t6 & t7 & t8 & t9 & t10 & t11 & ->).
  unfold specResponse, cookieBytes, slice, bigEndian.
  cbn [app Nat.sub take drop foldl].
  repeat split; try reflexivity.
  - pose proof (Z.div_mod type 256 ltac:(lia)). lia.
  - pose proof (Z.div_mod (Z.of_nat (sum_list (length <$> attrs))) 256
                  ltac:(lia)).
    lia.
Qed.

(** C7, as amended.  For a message type in 0..65535, a 12-byte transaction
    id and attributes whose byte lengths sum to at most 65535,
    [createStunResponse] returns the 20-byte header (type, body length equal
    to that sum, magic cookie, transaction id verbatim) followed by the
    attributes in their order; a Binding Response built from the one 12-byte
    XOR-MAPPED-ADDRESS attribute has type 0x0101, the transaction id of the
    request and body length 12. *)
Theorem C7_createStunResponse_layout
    (type : Z) (tid : Buffer) (attrs : list Buffer) :
  0 <= type <= 65535 ->
  length tid = 12%nat ->
  Z.of_nat (sum_list (length <$> attrs)) <= 65535 ->
  exists out,
    createStunResponse type tid attrs = Ok out /\
    out = specResponse type tid attrs /\
    bigEndian (slice 0 2 out) = type /\
    bigEndian (slice 2 4 out) = Z.of_nat (sum_list (length <$> attrs)) /\
    bigEndian (slice 4 8 out) = 0x2112A442 /\
    slice 8 20 out = tid /\
    drop 20 out = concat attrs /\
    (forall port octets,
        0 <= port <= 65535 ->
        length octets = 4%nat /\ isBuffer octets ->
        isBuffer tid ->
        exists attr,
          Refactored.createXorMappedAddress 1 port octets tid = Ok attr /\
          createStunResponse STUN_BINDING_RESPONSE tid [attr]
          = Ok ([0x01; 0x01; 0x00; 0x0C] ++ cookieBytes ++ tid ++ attr)).
Proof.
  intros Hty Htid Hsum.
  exists (specResponse type tid attrs).
  split; [now apply createStunResponse_spec|].
  split; [reflexivity|].
  destruct (specResponse_fields type tid attrs Htid) as (H1 & H2 & H3 & H4 & H5).
  repeat (split; [assumption|]).
  intros port octets Hp Ho Hb.
  exists (specXorMappedAddress port octets tid).
  split; [now apply Refactored_encode|].
  destruct (cyclic_isBuffer port octets tid Hp Ho (conj Htid Hb))
    as (_ & _ & Hl & _).
  rewrite createStunResponse_spec.
  - unfold specResponse. cbn [fmap list_fmap sum_list sum_list_with concat].
    rewrite Hl, app_nil_r. reflexivity.
  - unfold STUN_BINDING_RESPONSE. lia.
  - exact Htid.
  - cbn [fmap list_fmap sum_list sum_list_with id]. rewrite Hl. lia.
Qed.

Lemma C7_layout_witness :
  createStunResponse STUN_BINDING_RESPONSE sampleTid
    [[0; 32; 0; 8; 0; 1; 245; 35; 234; 3; 247; 118]]
  = Ok ([0x01; 0x01; 0x00; 0x0C] ++ cookieBytes ++ sampleTid
        ++ [0; 32; 0; 8; 0; 1; 245; 35; 234; 3; 247; 118]).
Proof.
  destruct (C7_createStunResponse_layout STUN_BINDING_RESPONSE sampleTid
              [[0; 32; 0; 8; 0; 1; 245; 35; 234; 3; 247; 118]])
    as (out & Hout & -> & _).
  - unfold STUN_BINDING_RESPONSE. lia.
  - reflexivity.
  - vm_compute. discriminate.
  - exact Hout.
Defined.

(** Past 65535 bytes of attributes the body length does not fit its field
    and [writeUInt16BE] raises. *)
Lemma createStunResponse_oversized (type : Z) (tid : Buffer) (attrs : list Buffer) :
  0 <= type <= 65535 ->
  65535 < Z.of_nat (sum_list (length <$> attrs)) ->
  createStunResponse type tid attrs = Throw RangeError.
Proof.
  intros Hty Hsum.
  unfold createStunResponse, Buffer_concat.
  rewrite concat_length_sum.
  unfold alloc. cbn [replicate].
  rewrite writeUInt16BE_ok by (cbn [length]; lia).
  cbn [rbind insert list_insert].
  unfold writeUInt16BE.
  destruct (Z.leb_spec (Z.of_nat (sum_list (length <$> attrs))) 65535);
    [lia|].
  now rewrite andb_false_r.
Qed.

Lemma oversized_sum :
  Z.of_nat (sum_list (length <$> [oversizedAttribute])) = 65536.
Proof.
  cbn [fmap list_fmap sum_list sum_list_with id]. unfold oversizedAttribute.
  rewrite length_replicate. lia.
Qed.

(** C7 as stated fails once the attributes exceed the 16-bit body length:
    with one attribute of 65536 bytes [writeUInt16BE(bodyLength, 2)] raises a
    range error and no response is built. *)
Lemma C7_counterexample_oversized_body :
  length sampleTid = 12%nat /\
  Z.of_nat (sum_list (length <$> [oversizedAttribute])) = 65536 /\
  createStunResponse STUN_BINDING_RESPONSE sampleTid [oversizedAttribute]
  = Throw RangeError.
Proof.
  split; [reflexivity|]. split; [exact oversized_sum|].
  apply createStunResponse_oversized.
  - unfold STUN_BINDING_RESPONSE. lia.
  - rewrite oversized_sum. lia.
Qed.

(** ** The admission controller *)

Example burst31_answers :
  (run burst31 (boot Refactored.limiter)).1
  = replicate 30 (Some true) ++ [Some false].
Proof. vm_compute. reflexivity. Qed.

Example afterBurst31_state :
  isPaused (limiter afterBurst31) = true /\
  timestamps (limiter afterBurst31) = Z.of_nat <$> seq 0 31 /\
  timers afterBurst31 = [3030].
Proof. vm_compute. repeat split. Qed.

Lemma prune_spec (now : Z) (l : RateLimiter) (ts : Z) :
  ts ∈ prune now l <-> ts ∈ timestamps l /\ now - ts < timeWindow l.
Proof. unfold prune. rewrite list_elem_of_filter. tauto. Qed.

Lemma prune_all (now : Z) (l : RateLimiter) :
  Forall (fun ts => now - ts < timeWindow l) (timestamps l) ->
  prune now l = timestamps l.
Proof.
  unfold prune. induction 1 as [|ts rest Hts _ IH]; [reflexivity|].
  rewrite filter_cons. destruct (decide (now - ts < timeWindow l)); [|lia].
  now rewrite IH.
Qed.

(** [check()] outside a pause. *)
Lemma check_open (now : Z) (w : World) :
  isPaused (limiter w) = false ->
  check now w =
  let ts := prune now (limiter w) ++ [now] in
  if decide (Z.of_nat (length ts) > maxRequests (limiter w))
  then (false,
        {| limiter := setPaused true (setTimestamps ts (limiter w));
           timers := timers w
                     ++ [now + setTimeoutDelay (pauseDuration (limiter w))] |})
  else (true,
        {| limiter := setTimestamps ts (limiter w); timers := timers w |}).
Proof.
  intros Hopen. unfold check. rewrite Hopen.
  cbn [timestamps setTimestamps maxRequests].
  destruct (decide (_ > _)); reflexivity.
Qed.

(** [check()] during a pause. *)
Lemma check_paused (now : Z) (w : World) :
  isPaused (limiter w) = true -> check now w = (false, w).
Proof. intros Hp. unfold check. now rewrite Hp. Qed.

(** The loop turn leaves a world alone when no deadline has come. *)
Lemma runTimers_early (now : Z) (w : World) :
  Forall (fun d => now < d) (timers w) -> runTimers now w = w.
Proof.
  intros H. unfold runTimers. destruct w as [l tm]. cbn [timers limiter] in *.
  assert (H1 : filter (fun d => d <= now) tm = []).
  { induction H as [|d tm Hd _ IH]; [reflexivity|].
    rewrite filter_cons. destruct (decide (d <= now)); [lia|exact IH]. }
  assert (H2 : filter (fun d => ~ d <= now) tm = tm).
  { induction H as [|d tm Hd _ IH]; [reflexivity|].
    rewrite filter_cons. destruct (decide (~ d <= now)); [|lia].
    f_equal. apply IH. now rewrite filter_cons in H1;
      destruct (decide (d <= now)); [lia|]. }
  now rewrite H1, H2.
Qed.

(** The loop turn at or after the single deadline runs the callback. *)
Lemma runTimers_due (now d : Z) (l : RateLimiter) :
  d <= now ->
  runTimers now {| limiter := l; timers := [d] |}
  = {| limiter := resume l; timers := [] |}.
Proof.
  intros H. unfold runTimers. cbn [timers limiter].
  rewrite !filter_cons, !filter_nil.
  destruct (decide (d <= now)); [|lia].
  destruct (decide (~ d <= now)); [lia|reflexivity].
Qed.

Lemma invariant_runTimers (now : Z) (w : World) :
  invariant w -> invariant (runTimers now w).
Proof.
  unfold invariant. destruct w as [l tm]. cbn [limiter timers].
  destruct (isPaused l) eqn:Hp.
  - intros [[d ->] Hne].
    destruct (Z.le_gt_cases d now) as [Hd|Hd].
    + rewrite runTimers_due by exact Hd. reflexivity.
    + rewrite runTimers_early by (cbn [timers]; repeat constructor; lia).
      cbn [limiter timers]. rewrite Hp. eauto.
  - intros ->. rewrite runTimers_early by constructor.
    cbn [limiter timers]. now rewrite Hp.
Qed.

Lemma invariant_check (now : Z) (w : World) :
  invariant w -> invariant (check now w).2.
Proof.
  intros Hinv. destruct (isPaused (limiter w)) eqn:Hp.
  - now rewrite check_paused.
  - rewrite check_open by exact Hp. cbv zeta.
    unfold invariant in *. rewrite Hp in Hinv.
    destruct (decide (_ > _)); cbn [snd limiter timers isPaused setPaused
                                    setTimestamps timestamps].
    + rewrite Hinv. split; [eauto|].
      intros H. apply app_eq_nil in H as [_ H]. discriminate.
    + rewrite Hp. exact Hinv.
Qed.

Lemma invariant_step (e : Event) (w : World) :
  invariant w -> invariant (step e w).2.
Proof.
  intros Hinv. destruct e as [now|now]; cbn [step].
  - pose proof (invariant_check now _ (invariant_runTimers now w Hinv)) as H.
    destruct (check now (runTimers now w)). exact H.
  - now apply invariant_runTimers.
Qed.

Lemma reachable_invariant (w : World) : reachable w -> invariant w.
Proof.
  induction 1 as [m win p|e w _ IH]; [reflexivity|].
  now apply invariant_step.
Qed.

Lemma reachable_run (es : list Event) (w : World) :
  reachable w -> reachable (run es w).2.
Proof.
  revert w. induction es as [|e es IH]; intros w Hw; [exact Hw|].
  cbn [run]. pose proof (reachable_step e w Hw) as H1.
  destruct (step e w) as [r w']. specialize (IH w' H1).
  destruct (run es w'). exact IH.
Qed.

Lemma afterBurst31_reachable : reachable afterBurst31.
Proof. apply reachable_run, (reachable_boot 30 10000 3000). Qed.

(** C2, as amended.  In every reachable state with [paused] true, a
    [check()] call returns false and changes nothing, so no timestamp is
    added; the timestamp sequence is not empty during the pause: it keeps
    what was recorded up to and including the tripping request, until the one
    pending un-pause callback empties it and ends the pause. *)
Theorem C2_pause_invariant (w : World) :
  reachable w ->
  isPaused (limiter w) = true ->
  (forall now, check now w = (false, w)) /\
  timestamps (limiter w) <> [] /\
  exists d,
    timers w = [d] /\
    (forall now, now < d -> runTimers now w = w) /\
    (forall now, d <= now ->
       timestamps (limiter (runTimers now w)) = [] /\
       isPaused (limiter (runTimers now w)) = false /\
       timers (runTimers now w) = []).
Proof.
  intros Hr Hp.
  pose proof (reachable_invariant w Hr) as Hinv.
  unfold invariant in Hinv. rewrite Hp in Hinv.
  destruct Hinv as [[d Hd] Hne].
  split; [intros now; now apply check_paused|].
  split; [exact Hne|].
  exists d. split; [exact Hd|]. split.
  - intros now Hnow. apply runTimers_early. rewrite Hd.
    repeat constructor. exact Hnow.
  - intros now Hnow. destruct w as [l tm]. cbn [timers] in Hd. subst tm.
    rewrite runTimers_due by exact Hnow. repeat split.
Qed.

Lemma C2_invariant_witness :
  check 31 afterBurst31 = (false, afterBurst31) /\
  timestamps (limiter afterBurst31) <> [].
Proof.
  destruct (C2_pause_invariant afterBurst31 afterBurst31_reachable)
    as (H1 & H2 & _); [reflexivity|].
  split; [apply H1|exact H2].
Defined.

(** C2 as stated fails: after the thirty-one datagrams that trip the limiter
    of the class-based variant the state is reachable and paused, and the
    timestamp sequence holds thirty-one instants. *)
Lemma C2_counterexample_paused_nonempty :
  reachable afterBurst31 /\
  isPaused (limiter afterBurst31) = true /\
  length (timestamps (limiter afterBurst31)) = 31%nat.
Proof.
  split; [exact afterBurst31_reachable|].
  split; vm_compute; reflexivity.
Qed.

(** ** Bursts *)

Lemma withinWindow_before (W t : Z) (pre rest : list Z) :
  withinWindow W (pre ++ t :: rest) -> Forall (fun ts => t - ts < W) pre.
Proof.
  induction pre as [|p pre IH]; cbn [app withinWindow]; [constructor|].
  intros [Hp Hrest]. constructor; [|now apply IH].
  apply Forall_app in Hp as [_ Hp]. now apply Forall_cons in Hp as [Hp _].
Qed.

(** From an open state holding [pre], with [pre] and then the burst within
    the window and [pre ++ nows] one longer than [maxRequests]: every check
    but the last is answered true, the last false, and it starts the pause. *)
Lemma checks_burst (nows pre : list Z) (w : World) :
  isPaused (limiter w) = false ->
  timestamps (limiter w) = pre ->
  nows <> [] ->
  Z.of_nat (length pre + length nows) = maxRequests (limiter w) + 1 ->
  withinWindow (timeWindow (limiter w)) (pre ++ nows) ->
  (checks nows w).1 = replicate (length nows - 1) true ++ [false] /\
  isPaused (limiter (checks nows w).2) = true /\
  timestamps (limiter (checks nows w).2) = pre ++ nows /\
  exists t, last nows = Some t /\
    timers (checks nows w).2
    = timers w ++ [t + setTimeoutDelay (pauseDuration (limiter w))].
Proof.
  revert pre w. induction nows as [|t rest IH]; intros pre w Hopen Hpre Hne Hlen Hwin;
    [congruence|].
  cbn [checks].
  assert (Hprune : prune t (limiter w) = pre).
  { rewrite prune_all; [exact Hpre|]. rewrite Hpre.
    eapply withinWindow_before, Hwin. }
  rewrite check_open by exact Hopen. cbv zeta. rewrite Hprune.
  rewrite length_app.
  destruct rest as [|t' rest]; cbn [length] in *.
  - destruct (decide (_ > _)) as [_|Hn]; [|lia].
    cbn [checks fst snd limiter setPaused setTimestamps isPaused timestamps
         timers length Nat.sub replicate app last].
    repeat split. exists t. split; reflexivity.
  - destruct (decide (_ > _)) as [Hn|_]; [lia|].
    specialize (IH (pre ++ [t])
                   {| limiter := setTimestamps (pre ++ [t]) (limiter w);
                      timers := timers w |}).
    cbn [limiter setTimestamps isPaused timestamps maxRequests timeWindow
         pauseDuration timers] in IH.
    destruct IH as (H1 & H2 & H3 & t1 & H4 & H5);
      [exact Hopen|reflexivity|discriminate
      |rewrite length_app; cbn [length] in *; lia
      |now rewrite <- app_assoc|].
    destruct (checks (t' :: rest) _) as [rs w'].
    cbn [fst snd] in *. rewrite H1, H2, H3, H5, <- app_assoc.
    cbn [length Nat.sub replicate app]. rewrite Nat.sub_0_r.
    repeat split. exists t1. split; [exact H4|reflexivity].
Qed.

(** C3.  In the open state [check(now)] keeps the timestamps less than
    [timeWindow] old (so every older one is dropped), appends [now], and
    compares the count with [maxRequests]: above it, the call is answered
    false, the pause begins and the un-pause callback is registered, the
    timestamp staying recorded; otherwise the call is answered true.  From a
    fresh limiter with [maxRequests = N], a burst of [N + 1] checks within
    the window is answered true [N] times and then false, and ends paused. *)
Theorem C3_check_open_state (now : Z) (w : World) :
  isPaused (limiter w) = false ->
  let ts := prune now (limiter w) ++ [now] in
  (forall t, t ∈ prune now (limiter w) <->
             t ∈ timestamps (limiter w) /\ now - t < timeWindow (limiter w)) /\
  timestamps (limiter (check now w).2) = ts /\
  (Z.of_nat (length ts) > maxRequests (limiter w) ->
   (check now w).1 = false /\
   isPaused (limiter (check now w).2) = true /\
   timers (check now w).2
   = timers w ++ [now + setTimeoutDelay (pauseDuration (limiter w))] /\
   (1 <= pauseDuration (limiter w) <= TIMEOUT_MAX ->
    timers (check now w).2 = timers w ++ [now + pauseDuration (limiter w)])) /\
  (Z.of_nat (length ts) <= maxRequests (limiter w) ->
   (check now w).1 = true /\
   isPaused (limiter (check now w).2) = false /\
   timers (check now w).2 = timers w) /\
  (forall (N : nat) (W P : Z) (nows : list Z),
      length nows = S N ->
      withinWindow W nows ->
      let fresh := boot (Refactored.RateLimiter_new (Z.of_nat N) W P) in
      (checks nows fresh).1 = replicate N true ++ [false] /\
      isPaused (limiter (checks nows fresh).2) = true /\
      timestamps (limiter (checks nows fresh).2) = nows).
Proof.
  intros Hopen ts.
  split; [intros t; apply prune_spec|].
  rewrite check_open by exact Hopen. cbv zeta. fold ts.
  split; [destruct (decide (_ > _)); reflexivity|].
  split; [|split].
  - intros Hgt. destruct (decide (_ > _)); [|lia].
    split; [reflexivity|]. split; [reflexivity|]. split; [reflexivity|].
    intros Hpd. cbn [snd timers]. unfold setTimeoutDelay.
    destruct (decide (1 <= _ <= TIMEOUT_MAX)); [reflexivity|contradiction].
  - intros Hle. destruct (decide (_ > _)); [lia|]. repeat split. exact Hopen.
  - intros N W P nows Hlen Hwin.
    set (fresh := boot (Refactored.RateLimiter_new (Z.of_nat N) W P)).
    destruct (checks_burst nows [] fresh) as (H1 & H2 & H3 & _);
      try reflexivity.
    + intros ->. discriminate Hlen.
    + cbn [length Nat.add fresh boot limiter Refactored.RateLimiter_new
           maxRequests]. lia.
    + exact Hwin.
    + rewrite Hlen in H1. cbn [Nat.sub] in H1. rewrite Nat.sub_0_r in H1.
      now repeat split.
Qed.

Lemma C3_open_witness :
  (checks [0; 1; 2] (boot (Refactored.RateLimiter_new 2 10000 3000))).1
  = [true; true; false].
Proof.
  destruct (C3_check_open_state 0 (boot (Refactored.RateLimiter_new 2 10000 3000)))
    as (_ & _ & _ & _ & H); [reflexivity|].
  destruct (H 2%nat 10000 3000 [0; 1; 2]) as (H1 & _); [reflexivity| |exact H1].
  cbn [withinWindow]. repeat split; repeat constructor; lia.
Defined.

(** ** The length of a pause *)

(** Before the deadline of the pending callback nothing moves: every
    datagram is answered false and the world stays as it is. *)
Lemma run_paused (es : list Event) (w : World) (d : Z) :
  isPaused (limiter w) = true ->
  timers w = [d] ->
  Forall (fun e => eventTime e < d) es ->
  run es w = (pausedAnswer <$> es, w).
Proof.
  intros Hp Hd. induction 1 as [|e es He _ IH]; [reflexivity|].
  cbn [run].
  assert (Hstep : step e w = (pausedAnswer e, w)).
  { assert (Hrun : runTimers (eventTime e) w = w).
    { apply runTimers_early. rewrite Hd. repeat constructor. exact He. }
    destruct e as [now|now]; cbn [step pausedAnswer eventTime] in *.
    - now rewrite Hrun, check_paused.
    - now rewrite Hrun. }
  now rewrite Hstep, IH.
Qed.


(** A fresh limiter with a positive [maxRequests] answers true. *)
Lemma check_fresh (now m W P : Z) :
  0 < m -> (check now (boot (Refactored.RateLimiter_new m W P))).1 = true.
Proof.
  intros Hm. rewrite check_open by reflexivity. cbv zeta.
  cbn [boot limiter Refactored.RateLimiter_new maxRequests].
  destruct (decide (_ > _)) as [H|_]; [|reflexivity].
  unfold prune, Refactored.RateLimiter_new in H.
  cbn [timestamps] in H. rewrite filter_nil in H.
  cbn [app length] in H. lia.
Qed.





(** ** The validating constructor *)

(** C10.  The constructor of the config-driven variant throws exactly when
    one of [maxRequests], [timeWindowMs], [pauseDurationMs] is at most 0;
    otherwise it builds an open limiter with no timestamp and the three
    values stored, a limiter whose first check is answered true. *)
Theorem C10_constructor_validates (m w p : Z) :
  ((exists e, Configured.RateLimiter_new m w p = Throw e)
   <-> m <= 0 \/ w <= 0 \/ p <= 0) /\
  ((exists l, Configured.RateLimiter_new m w p = Ok l)
   <-> 0 < m /\ 0 < w /\ 0 < p) /\
  (forall l,
      Configured.RateLimiter_new m w p = Ok l ->
      isPaused l = false /\ timestamps l = [] /\
      maxRequests l = m /\ timeWindow l = w /\ pauseDuration l = p /\
      l = Refactored.RateLimiter_new m w p /\
      forall now, (check now (boot l)).1 = true).
Proof.
  unfold Configured.RateLimiter_new.
  assert (Hreject : forall msg,
             m <= 0 \/ w <= 0 \/ p <= 0 ->
             ((exists e, @Throw RateLimiter (Error msg) = Throw e)
              <-> m <= 0 \/ w <= 0 \/ p <= 0) /\
             ((exists l, @Throw RateLimiter (Error msg) = Ok l)
              <-> 0 < m /\ 0 < w /\ 0 < p) /\
             (forall l,
                 @Throw RateLimiter (Error msg) = Ok l ->
                 isPaused l = false /\ timestamps l = [] /\
                 maxRequests l = m /\ timeWindow l = w /\ pauseDuration l = p /\
                 l = Refactored.RateLimiter_new m w p /\
                 forall now, (check now (boot l)).1 = true)).
  { intros msg Hbad.
    split; [split; [intros _; exact Hbad|intros _; eauto]|].
    split; [split; [intros [l H]; discriminate H|lia]|].
    intros l H. discriminate H. }
  destruct (decide (m <= 0)) as [Hm|Hm]; [apply Hreject; lia|].
  destruct (decide (w <= 0)) as [Hw|Hw]; [apply Hreject; lia|].
  destruct (decide (p <= 0)) as [Hp|Hp]; [apply Hreject; lia|].
  split; [split; [intros [e H]; discriminate H|lia]|].
  split; [split; [intros _; lia|intros _; eauto]|].
  intros l H. apply Ok_inj in H. subst l.
  repeat split. intros now. apply check_fresh. lia.
Qed.

(** ** The original script *)

(** Called during a pause, [checkRateLimit] would record the instant and
    answer true; the handler never does so, its gate testing [isPaused]
    first. *)
Lemma Original_checkRateLimit_paused (now : Z) (g : Original.Globals) :
  Original.isPaused g = true ->
  (Original.checkRateLimit now g).1 = true /\
  Original.gate now g = (false, g).
Proof.
  intros Hp. unfold Original.gate, Original.checkRateLimit. rewrite Hp.
  cbn [negb]. now rewrite andb_false_r.
Qed.

Lemma sameState_resumes (fired : list Z) (g : Original.Globals) (w : World) :
  sameState g w ->
  let g' := foldl (fun g _ => Original.resume g) g fired in
  let l' := foldl (fun l _ => resume l) (limiter w) fired in
  Original.requestTimestamps g' = timestamps l' /\
  Original.isPaused g' = isPaused l' /\
  maxRequests l' = Original.MAX_REQUESTS /\
  timeWindow l' = Original.TIME_WINDOW /\
  pauseDuration l' = Original.PAUSE_DURATION.
Proof.
  revert g w. induction fired as [|d fired IH]; intros g w Hs; cbn [foldl].
  - destruct Hs as (H1 & H2 & _ & H4 & H5 & H6). now repeat split.
  - apply (IH (Original.resume g)
              {| limiter := resume (limiter w); timers := timers w |}).
    destruct Hs as (H1 & H2 & H3 & H4 & H5 & H6). now repeat split.
Qed.

(** The gate of the original handler is [check()] of the class-based
    limiter built with the constants of the script, turn by turn. *)
Lemma Original_step_simulates (e : Event) (g : Original.Globals) (w : World) :
  sameState g w ->
  (Original.step e g).1 = (step e w).1 /\
  sameState (Original.step e g).2 (step e w).2.
Proof.
  intros Hs.
  assert (Hrt : forall now, sameState (Original.runTimers now g) (runTimers now w)).
  { intros now. pose proof Hs as (_ & _ & H3 & _).
    unfold Original.runTimers, runTimers. rewrite H3.
    destruct (sameState_resumes (filter (fun d => d <= now) (timers w)) g w Hs)
      as (H1 & H2 & H4 & H5 & H6).
    now repeat split. }
  destruct e as [now|now]; cbn [Original.step step]; [|split; [reflexivity|apply Hrt]].
  specialize (Hrt now).
  destruct (Original.runTimers now g) as [ts p tm].
  destruct (runTimers now w) as [[ts' p' m W P] tm'].
  destruct Hrt as (H1 & H2 & H3 & H4 & H5 & H6).
  cbn [Original.requestTimestamps Original.isPaused Original.timers limiter
       timers timestamps isPaused maxRequests timeWindow pauseDuration] in *.
  subst ts' p' tm' m W P.
  unfold Original.gate, Original.checkRateLimit, check, prune.
  cbn [Original.requestTimestamps Original.isPaused Original.timers limiter
       timers timestamps isPaused maxRequests timeWindow pauseDuration
       setTimestamps setPaused triggerPause].
  destruct p; [now repeat split|].
  rewrite andb_true_r.
  destruct (decide (_ > _)) as [Hgt|Hle].
  - rewrite bool_decide_eq_true_2 by exact Hgt. now repeat split.
  - rewrite bool_decide_eq_false_2 by exact Hle. now repeat split.
Qed.

(** * Further properties of the code *)

(** ** The decoder, beyond the header checks *)

(** X1.  [parseStunMessage] never raises: the three reads come after the test
    of the length, so that no datagram, however short, reaches a read out of
    range; below 20 bytes the answer is [null]. *)
Theorem X1_parseStunMessage_never_throws (d : Buffer) :
  (exists r, parseStunMessage d = Ok r) /\
  ((length d < 20)%nat -> parseStunMessage d = Ok None).
Proof.
  rewrite parseStunMessage_decode. split; [eauto|].
  intros Hl. unfold decode.
  destruct (decide (length d < 20)%nat); [reflexivity|lia].
Qed.

Lemma X1_never_throws_witness : parseStunMessage [] = Ok None.
Proof. exact (proj2 (X1_parseStunMessage_never_throws []) ltac:(cbn; lia)). Defined.

(** X2.  A datagram with the magic cookie whose length is not 20 plus the
    declared body length is answered [null], be it cut short or padded. *)
Theorem X2_parseStunMessage_length_mismatch (d : Buffer) :
  (20 <= length d)%nat ->
  bigEndian (slice 4 8 d) = 0x2112A442 ->
  Z.of_nat (length d) <> 20 + bigEndian (slice 2 4 d) ->
  parseStunMessage d = Ok None.
Proof.
  intros Hl Hc Hn. rewrite parseStunMessage_decode. unfold decode.
  destruct (decide (length d < 20)%nat); [lia|].
  destruct (decide (bigEndian (slice 4 8 d) <> 0x2112A442)); [contradiction|].
  destruct (decide (Z.of_nat (length d) <> 20 + bigEndian (slice 2 4 d)));
    [reflexivity|contradiction].
Qed.

Lemma X2_length_mismatch_witness :
  parseStunMessage (sampleRequest ++ [0]) = Ok None /\
  parseStunMessage (<[3%nat := 4]> sampleRequest) = Ok None.
Proof.
  split.
  - apply X2_parseStunMessage_length_mismatch;
      [vm_compute; lia|reflexivity|vm_compute; discriminate].
  - apply X2_parseStunMessage_length_mismatch;
      [vm_compute; lia|reflexivity|vm_compute; discriminate].
Defined.

Lemma specResponse_length (type : Z) (tid : Buffer) (attrs : list Buffer) :
  length tid = 12%nat ->
  length (specResponse type tid attrs) = (20 + sum_list (length <$> attrs))%nat.
Proof.
  intros Htid. unfold specResponse, cookieBytes.
  rewrite !length_app, Htid, concat_length_sum. reflexivity.
Qed.

(** X3.  Decoding an assembled response gives back what it was assembled
    from: the type, the transaction id, the attributes concatenated, and
    their length as the declared length. *)
Theorem X3_response_parses_back (type : Z) (tid : Buffer) (attrs : list Buffer) :
  0 <= type <= 65535 ->
  length tid = 12%nat ->
  Z.of_nat (sum_list (length <$> attrs)) <= 65535 ->
  exists out,
    createStunResponse type tid attrs = Ok out /\
    parseStunMessage out
    = Ok (Some {| msg_type := type;
                  msg_length := Z.of_nat (sum_list (length <$> attrs));
                  transactionId := tid;
                  attributes := concat attrs |}).
Proof.
  intros Hty Htid Hsum.
  exists (specResponse type tid attrs).
  split; [now apply createStunResponse_spec|].
  destruct (specResponse_fields type tid attrs Htid) as (H1 & H2 & H3 & H4 & H5).
  pose proof (specResponse_length type tid attrs Htid) as Hlen.
  rewrite parseStunMessage_decode. unfold decode.
  destruct (decide (_ < 20)%nat); [lia|].
  destruct (decide (bigEndian _ <> 0x2112A442)); [contradiction|].
  destruct (decide (Z.of_nat _ <> _)) as [Hn|_]; [exfalso; apply Hn; lia|].
  cbn [forgetError]. now rewrite H1, H2, H4, H5.
Qed.

Lemma X3_parses_back_witness :
  exists out,
    createStunResponse STUN_BINDING_RESPONSE sampleTid [[1; 2]; []; [3]] = Ok out /\
    parseStunMessage out
    = Ok (Some {| msg_type := 0x0101; msg_length := 3;
                  transactionId := sampleTid; attributes := [1; 2; 3] |}).
Proof.
  apply (X3_response_parses_back STUN_BINDING_RESPONSE sampleTid [[1; 2]; []; [3]]).
  - unfold STUN_BINDING_RESPONSE. lia.
  - reflexivity.
  - vm_compute. discriminate.
Defined.

(** ** The encoder, beyond well-formed inputs *)

(** X4.  For a given transaction id the attribute determines the port and the
    address: two valid (port, address) pairs with the same attribute are the
    same, in the class-based variants and in the original script. *)
Theorem X4_encoder_injective (port port' : Z) (octets octets' tid : list Z) :
  0 <= port <= 65535 -> 0 <= port' <= 65535 ->
  length octets = 4%nat /\ isBuffer octets ->
  length octets' = 4%nat /\ isBuffer octets' ->
  length tid = 12%nat /\ isBuffer tid ->
  (Refactored.createXorMappedAddress 1 port octets tid
   = Refactored.createXorMappedAddress 1 port' octets' tid ->
   port = port' /\ octets = octets') /\
  (Original.createXorMappedAddress 1 port octets tid
   = Original.createXorMappedAddress 1 port' octets' tid ->
   port = port' /\ octets = octets').
Proof.
  intros Hp Hp' Ho Ho' Ht.
  rewrite !Refactored_encode, !Original_encode by assumption.
  destruct Ho as [Hlo _], Ho' as [Hlo' _], Ht as [Hlt _].
  destruct (list_length_4 _ Hlo) as (a & b & c & d & ->).
  destruct (list_length_4 _ Hlo') as (a' & b' & c' & d' & ->).
  destruct (list_length_12 _ Hlt)
    as (t0 & t1 & t2 & t3 & t4 & t5 & t6 & t7 & t8 & t9 & t10 & t11 & ->).
  split; intros H; apply Ok_inj in H.
  - split; [eapply spec_port_inj, H|].
    revert H. spec_cells. intros H. injection H as _ _ H0 H1 H2 H3.
    cancel_xor. congruence.
  - split; [eapply cyclic_port_inj, H|].
    revert H. spec_cells. intros H. injection H as _ _ H0 H1 H2 H3.
    cancel_xor. congruence.
Qed.

Lemma X4_injective_witness :
  (Refactored.createXorMappedAddress 1 samplePort sampleOctets sampleTid
   = Refactored.createXorMappedAddress 1 80 [10; 0; 0; 1] sampleTid ->
   samplePort = 80 /\ sampleOctets = [10; 0; 0; 1]) /\
  (Original.createXorMappedAddress 1 samplePort sampleOctets sampleTid
   = Original.createXorMappedAddress 1 80 [10; 0; 0; 1] sampleTid ->
   samplePort = 80 /\ sampleOctets = [10; 0; 0; 1]).
Proof.
  destruct sample_valid as (Hp & Ho & Ht).
  apply (X4_encoder_injective samplePort 80 sampleOctets [10; 0; 0; 1]
           sampleTid Hp); [lia| exact Ho | | exact Ht].
  split; [reflexivity|now apply isBuffer_lit].
Defined.

Lemma lxor_fold_id (x a b : Z) : Z.lxor (Z.lxor x a) b = x <-> a = b.
Proof.
  split.
  - intros H. apply Z.lxor_eq.
    apply (lxor_inj_r _ _ x). now rewrite Z.lxor_assoc in H; rewrite Z.lxor_0_r.
  - intros ->. now rewrite Z.lxor_assoc, Z.lxor_nilpotent, Z.lxor_0_r.
Qed.

(** X5.  The original script and the class-based variants emit the same
    attribute exactly for the transaction ids whose bytes 4..7 equal their
    bytes 8..11, the only ones on which the cyclic fold cancels. *)
Theorem X5_variants_agree_iff (port : Z) (octets tid : list Z) :
  0 <= port <= 65535 ->
  length octets = 4%nat /\ isBuffer octets ->
  length tid = 12%nat /\ isBuffer tid ->
  Original.createXorMappedAddress 1 port octets tid
  = Refactored.createXorMappedAddress 1 port octets tid
  <-> take 4 (drop 4 tid) = drop 8 tid.
Proof.
  intros Hp Ho Ht.
  rewrite Refactored_encode, Original_encode by assumption.
  destruct Ho as [Hlo _], Ht as [Hlt _].
  destruct (list_length_4 _ Hlo) as (a & b & c & d & ->).
  destruct (list_length_12 _ Hlt)
    as (t0 & t1 & t2 & t3 & t4 & t5 & t6 & t7 & t8 & t9 & t10 & t11 & ->).
  spec_cells. split.
  - intros H. apply Ok_inj in H. injection H as H0 H1 H2 H3.
    apply lxor_fold_id in H0, H1, H2, H3. congruence.
  - intros H. injection H as -> -> -> ->.
    now rewrite !(proj2 (lxor_fold_id _ _ _) eq_refl).
Qed.

Lemma X5_agree_witness :
  Original.createXorMappedAddress 1 samplePort sampleOctets
    [1; 2; 3; 4; 5; 6; 7; 8; 5; 6; 7; 8]
  = Refactored.createXorMappedAddress 1 samplePort sampleOctets
      [1; 2; 3; 4; 5; 6; 7; 8; 5; 6; 7; 8].
Proof.
  destruct sample_valid as (Hp & Ho & _).
  apply (X5_variants_agree_iff samplePort sampleOctets
           [1; 2; 3; 4; 5; 6; 7; 8; 5; 6; 7; 8] Hp Ho).
  - split; [reflexivity|now apply isBuffer_lit].
  - reflexivity.
Defined.

Lemma toInt32_id (z : Z) : - 2 ^ 31 <= z < 2 ^ 31 -> toInt32 z = z.
Proof.
  intros Hz. unfold toInt32.
  change (2 ^ 31) with 2147483648 in *. change (2 ^ 32) with 4294967296.
  rewrite Z.mod_small; lia.
Qed.

(** Outside 0..65535 the XOR with [0x2112] stays outside. *)
Lemma xorPort_out_of_range (port : Z) :
  - 2 ^ 31 <= port < 2 ^ 31 ->
  ~ 0 <= port <= 65535 ->
  ~ 0 <= js_xor port (js_sar STUN_MAGIC_COOKIE 16) <= 65535.
Proof.
  intros Hi Hout. rewrite cookie_shift. unfold js_xor.
  rewrite toInt32_id by exact Hi.
  rewrite (toInt32_id 0x2112) by (change (2 ^ 31) with 2147483648; lia).
  intros Hx.
  destruct (Z.lt_ge_cases port 0) as [Hneg|Hpos].
  - assert (H : 0 <= Z.lxor port 0x2112) by lia.
    apply Z.lxor_nonneg in H. lia.
  - assert (H : 0 <= Z.lxor (Z.lxor port 0x2112) 0x2112 < 2 ^ 16)
      by (apply lxor_bound; change (2 ^ 16) with 65536; lia).
    rewrite Z.lxor_assoc, Z.lxor_nilpotent, Z.lxor_0_r in H.
    change (2 ^ 16) with 65536 in H. lia.
Qed.

Lemma writeUInt16BE_range_error (v : Z) (off : nat) (b : Buffer) :
  ~ 0 <= v <= 65535 -> writeUInt16BE v off b = Throw RangeError.
Proof.
  intros Hv. unfold writeUInt16BE.
  destruct (Z.leb_spec 0 v); [|reflexivity].
  destruct (Z.leb_spec v 65535); [lia|reflexivity].
Qed.

(** [copy] keeps what lies before [targetStart] and the length of the
    target. *)
Lemma copy_shape (src target : Buffer) (start : nat) :
  (start <= length target)%nat ->
  exists rest,
    copy src target start = take start target ++ rest /\
    length rest = (length target - start)%nat.
Proof.
  intros Hs. unfold copy. eexists. split; [reflexivity|].
  rewrite length_app, length_take, length_drop. lia.
Qed.

Lemma Refactored_encoder_any_address (port : Z) (addrBytes tid : list Z) :
  0 <= port <= 65535 ->
  exists rest,
    Refactored.createXorMappedAddress 1 port addrBytes tid
    = Ok ([0x00; 0x20; 0x00; 0x08; 0x00; 0x01;
           Z.lxor port 0x2112 / 256; Z.lxor port 0x2112 mod 256] ++ rest) /\
    length rest = 4%nat.
Proof.
  intros Hp. unfold Refactored.createXorMappedAddress.
  destruct (xorPort_range port Hp) as [-> Hx].
  eval_closed (writeUInt16BE STUN_ATTR_XOR_MAPPED_ADDRESS 0 (alloc 12)).
  cbn [rbind].
  match goal with |- context [writeUInt16BE 8 2 ?b] =>
    eval_closed (writeUInt16BE 8 2 b) end.
  cbn [rbind].
  match goal with |- context [writeUInt8 0 4 ?b] =>
    eval_closed (writeUInt8 0 4 b) end.
  cbn [rbind].
  match goal with |- context [writeUInt8 1 5 ?b] =>
    eval_closed (writeUInt8 1 5 b) end.
  cbn [rbind].
  rewrite writeUInt16BE_ok by (cbn [length]; lia).
  cbn [rbind insert list_insert].
  match goal with |- context [copy ?src ?tgt 8] =>
    destruct (copy_shape src tgt 8) as (rest & -> & Hrest); [cbn [length]; lia|]
  end.
  exists rest. split; [reflexivity|exact Hrest].
Qed.

Lemma Original_encoder_any_address (port : Z) (addrBytes tid : list Z) :
  0 <= port <= 65535 ->
  exists rest,
    Original.createXorMappedAddress 1 port addrBytes tid
    = Ok ([0x00; 0x20; 0x00; 0x08; 0x00; 0x01;
           Z.lxor port 0x2112 / 256; Z.lxor port 0x2112 mod 256] ++ rest) /\
    length rest = 4%nat.
Proof.
  intros Hp. unfold Original.createXorMappedAddress.
  destruct (xorPort_range port Hp) as [-> Hx].
  eval_closed (writeUInt16BE STUN_ATTR_XOR_MAPPED_ADDRESS 0 (alloc 20)).
  cbn [rbind Nat.add].
  match goal with |- context [writeUInt8 0 4 ?b] =>
    eval_closed (writeUInt8 0 4 b) end.
  cbn [rbind].
  match goal with |- context [writeUInt8 1 5 ?b] =>
    eval_closed (writeUInt8 1 5 b) end.
  cbn [rbind].
  rewrite writeUInt16BE_ok by (cbn [length]; lia).
  cbn [rbind insert list_insert].
  match goal with |- context [copy ?src ?tgt 8] =>
    destruct (copy_shape src tgt 8) as (rest & -> & Hrest); [cbn [length]; lia|]
  end.
  cbn [length Nat.sub] in Hrest. cbn [take app].
  change (Z.of_nat 8) with 8.
  rewrite writeUInt16BE_ok by (cbn [length]; lia).
  cbn [rbind insert list_insert]. unfold slice. cbn [Nat.sub drop take].
  exists (take 4 rest). split; [reflexivity|].
  rewrite length_take. lia.
Qed.

(** X6.  The shape of the address does not matter to the success of the
    encoder: for a port that is a 32-bit integer, any list of address
    numbers and any transaction id, [createXorMappedAddress] returns a buffer
    of 12 bytes, with the same first eight in every variant, when the port is
    in 0..65535, and raises a range error when it is not. *)
Theorem X6_encoder_succeeds_iff_port (port : Z) (addrBytes tid : list Z) :
  - 2 ^ 31 <= port < 2 ^ 31 ->
  (0 <= port <= 65535 ->
   exists bufR bufO,
     Refactored.createXorMappedAddress 1 port addrBytes tid = Ok bufR /\
     Original.createXorMappedAddress 1 port addrBytes tid = Ok bufO /\
     length bufR = 12%nat /\ length bufO = 12%nat /\
     take 8 bufR = take 8 bufO) /\
  (~ 0 <= port <= 65535 ->
   Refactored.createXorMappedAddress 1 port addrBytes tid = Throw RangeError /\
   Original.createXorMappedAddress 1 port addrBytes tid = Throw RangeError).
Proof.
  intros Hi. split.
  - intros Hp.
    destruct (Refactored_encoder_any_address port addrBytes tid Hp)
      as (r1 & H1 & L1).
    destruct (Original_encoder_any_address port addrBytes tid Hp)
      as (r2 & H2 & L2).
    eexists _, _. split; [exact H1|]. split; [exact H2|].
    rewrite !length_app, L1, L2. repeat split.
  - intros Hout. pose proof (xorPort_out_of_range port Hi Hout) as Hx.
    unfold Refactored.createXorMappedAddress, Original.createXorMappedAddress.
    eval_closed (writeUInt16BE STUN_ATTR_XOR_MAPPED_ADDRESS 0 (alloc 12)).
    eval_closed (writeUInt16BE STUN_ATTR_XOR_MAPPED_ADDRESS 0 (alloc 20)).
    cbn [rbind Nat.add].
    match goal with |- context [writeUInt16BE 8 2 ?b] =>
      eval_closed (writeUInt16BE 8 2 b) end.
    cbn [rbind].
    repeat match goal with |- context [writeUInt8 0 4 ?b] =>
      progress eval_closed (writeUInt8 0 4 b) end.
    cbn [rbind].
    repeat match goal with |- context [writeUInt8 1 5 ?b] =>
      progress eval_closed (writeUInt8 1 5 b) end.
    cbn [rbind].
    rewrite !writeUInt16BE_range_error by exact Hx.
    split; reflexivity.
Qed.

Lemma X6_encoder_port_witness :
  (exists bufR bufO,
     Refactored.createXorMappedAddress 1 3478 [0] [] = Ok bufR /\
     Original.createXorMappedAddress 1 3478 [0] [] = Ok bufO /\
     length bufR = 12%nat /\ length bufO = 12%nat /\
     take 8 bufR = take 8 bufO) /\
  Refactored.createXorMappedAddress 1 65536 sampleOctets sampleTid
  = Throw RangeError.
Proof.
  split.
  - apply (X6_encoder_succeeds_iff_port 3478 [0] []);
      [change (2 ^ 31) with 2147483648; lia|lia].
  - apply (X6_encoder_succeeds_iff_port 65536 sampleOctets sampleTid);
      [change (2 ^ 31) with 2147483648; lia|lia].
Defined.

(** ** The handlers *)

Lemma isBindingRequest_dec (d : Buffer) : Decision (isBindingRequest d).
Proof. unfold isBindingRequest. apply _. Qed.

Lemma decode_binding (d : Buffer) :
  isBindingRequest d ->
  decode d = inr {| msg_type := 0x0001;
                    msg_length := bigEndian (slice 2 4 d);
                    transactionId := slice 8 20 d;
                    attributes := drop 20 d |}.
Proof.
  intros (Hl & Hc & Hb & Ht). unfold decode.
  destruct (decide (length d < 20)%nat); [lia|].
  destruct (decide (bigEndian (slice 4 8 d) <> 0x2112A442)); [contradiction|].
  destruct (decide (Z.of_nat (length d) <> 20 + bigEndian (slice 2 4 d)));
    [contradiction|].
  now rewrite Ht.
Qed.

Lemma decode_not_binding (d : Buffer) :
  ~ isBindingRequest d ->
  match decode d with
  | inl _ => True
  | inr m => msg_type m <> 0x0001
  end.
Proof.
  intros Hn. unfold decode.
  destruct (decide (length d < 20)%nat); [exact I|].
  destruct (decide (bigEndian (slice 4 8 d) <> 0x2112A442)); [exact I|].
  destruct (decide (Z.of_nat (length d) <> 20 + bigEndian (slice 2 4 d)));
    [exact I|].
  cbn [msg_type]. intros Ht. apply Hn. unfold isBindingRequest.
  repeat split; try assumption; lia.
Qed.

Lemma slice_8_20_length (d : Buffer) :
  (20 <= length d)%nat -> length (slice 8 20 d) = 12%nat.
Proof. intros H. unfold slice. rewrite length_take, length_drop. lia. Qed.

Lemma isBuffer_slice (s e : nat) (d : Buffer) : isBuffer d -> isBuffer (slice s e d).
Proof. unfold isBuffer, slice. intros H. now apply Forall_take, Forall_drop. Qed.

Lemma createStunResponse_binding (tid attr : Buffer) :
  length tid = 12%nat -> length attr = 12%nat ->
  createStunResponse STUN_BINDING_RESPONSE tid [attr]
  = Ok (bindingResponse tid attr).
Proof.
  intros Ht Ha. rewrite createStunResponse_spec.
  - unfold specResponse, bindingResponse.
    cbn [fmap list_fmap sum_list sum_list_with concat id].
    rewrite Ha, app_nil_r. reflexivity.
  - unfold STUN_BINDING_RESPONSE. lia.
  - exact Ht.
  - cbn [fmap list_fmap sum_list sum_list_with id]. rewrite Ha. lia.
Qed.

(** What the ['message'] handler does, case by case. *)
Lemma Refactored_onMessage_shape
    (now : Z) (msg : Buffer) (port : Z) (address : list Z) (w : World) :
  0 <= port <= 65535 ->
  (~ ((check now w).1 = true /\ isBindingRequest msg) /\
   Refactored.onMessage now msg port address w = Ok (None, (check now w).2)) \/
  ((check now w).1 = true /\ isBindingRequest msg /\
   exists attr,
     Refactored.createXorMappedAddress 1 port address (slice 8 20 msg) = Ok attr /\
     length attr = 12%nat /\
     Refactored.onMessage now msg port address w
     = if decide (1 <= port <= 65535)
       then Ok (Some (bindingResponse (slice 8 20 msg) attr), (check now w).2)
       else Throw RangeError).
Proof.
  intros Hp. unfold Refactored.onMessage.
  destruct (check now w) as [ok w']. cbn [fst snd].
  destruct ok; cbn [negb]; [|left; split; [intros [H _]; discriminate H|reflexivity]].
  rewrite parseStunMessage_decode. cbn [rbind].
  destruct (isBindingRequest_dec msg) as [Hb|Hb].
  - right. rewrite (decode_binding msg Hb).
    cbn [forgetError msg_type transactionId negb].
    change (0x0001 =? STUN_BINDING_REQUEST) with true. cbn [negb].
    destruct (Refactored_encoder_any_address port address (slice 8 20 msg) Hp)
      as (rest & Henc & Hrest).
    assert (Hlen : length ([0x00; 0x20; 0x00; 0x08; 0x00; 0x01;
                            Z.lxor port 0x2112 / 256; Z.lxor port 0x2112 mod 256]
                           ++ rest) = 12%nat)
      by (rewrite length_app, Hrest; reflexivity).
    split; [reflexivity|]. split; [exact Hb|].
    eexists. split; [exact Henc|]. split; [exact Hlen|].
    rewrite Henc. cbn [rbind].
    rewrite createStunResponse_binding;
      [|apply slice_8_20_length, Hb|exact Hlen].
    cbn [rbind]. unfold Refactored.send.
    destruct (decide (1 <= port <= 65535)); reflexivity.
  - left. split; [tauto|].
    pose proof (decode_not_binding msg Hb) as Hd.
    destruct (decode msg) as [e|m]; cbn [forgetError]; [reflexivity|].
    destruct (Z.eqb_spec (msg_type m) STUN_BINDING_REQUEST) as [Heq|_];
      [contradiction|reflexivity].
Qed.

Lemma Refactored_onMessage_not_binding
    (now : Z) (msg : Buffer) (port : Z) (address : list Z) (w : World) :
  ~ isBindingRequest msg ->
  Refactored.onMessage now msg port address w = Ok (None, (check now w).2).
Proof.
  intros Hb. unfold Refactored.onMessage.
  destruct (check now w) as [ok w']. cbn [fst snd].
  destruct ok; cbn [negb]; [|reflexivity].
  rewrite parseStunMessage_decode. cbn [rbind].
  pose proof (decode_not_binding msg Hb) as Hd.
  destruct (decode msg) as [e|m]; cbn [forgetError]; [reflexivity|].
  destruct (Z.eqb_spec (msg_type m) STUN_BINDING_REQUEST) as [Heq|_];
    [contradiction|reflexivity].
Qed.

(** X7.  For a sender port in 1..65535 the ['message'] handler never
    raises, whatever the datagram and the address; what [check()] does to the
    limiter is done whatever the datagram, so that outside a pause the
    instant is recorded for a datagram that does not parse as for a Binding
    Request; and at the sender port 0 a Binding Request that is let through
    makes the handler raise, [server.send] refusing the port. *)
Theorem X7_onMessage_never_throws
    (now : Z) (msg : Buffer) (port : Z) (address : list Z) (w : World) :
  (1 <= port <= 65535 ->
   exists resp,
     Refactored.onMessage now msg port address w = Ok (resp, (check now w).2)) /\
  (isPaused (limiter w) = false ->
   timestamps (limiter (check now w).2) = prune now (limiter w) ++ [now]) /\
  (port = 0 -> (check now w).1 = true -> isBindingRequest msg ->
   Refactored.onMessage now msg port address w = Throw RangeError).
Proof.
  split; [|split].
  - intros Hp.
    destruct (Refactored_onMessage_shape now msg port address w ltac:(lia))
      as [[_ H]|(_ & _ & attr & _ & _ & H)]; [eauto|].
    destruct (decide (1 <= port <= 65535)); [eauto|contradiction].
  - intros Hopen. rewrite check_open by exact Hopen. cbv zeta.
    destruct (decide (_ > _)); reflexivity.
  - intros -> Hc Hb.
    destruct (Refactored_onMessage_shape now msg 0 address w ltac:(lia))
      as [[Hn _]|(_ & _ & attr & _ & _ & H)]; [tauto|].
    destruct (decide (1 <= 0 <= 65535)); [lia|exact H].
Qed.

Lemma X7_never_throws_witness :
  (exists resp,
     Refactored.onMessage 5 shortDatagram 3478 [] (boot Refactored.limiter)
     = Ok (resp, (check 5 (boot Refactored.limiter)).2)) /\
  Refactored.onMessage 5 sampleRequest 0 sampleOctets (boot Refactored.limiter)
  = Throw RangeError.
Proof.
  split.
  - apply (X7_onMessage_never_throws 5 shortDatagram 3478 []
             (boot Refactored.limiter)).
    lia.
  - apply (X7_onMessage_never_throws 5 sampleRequest 0 sampleOctets
             (boot Refactored.limiter)); [reflexivity|reflexivity|].
    unfold isBindingRequest. split; [vm_compute; lia|]. repeat split.
Defined.

(** X8.  For a sender port in 1..65535 the ['message'] handler sends a
    response exactly when [check()] answers true and the datagram is a
    well-formed Binding Request; the response then is the Binding Response
    header with the transaction id of the request, bytes 8..19 of the
    datagram, followed by the XOR-MAPPED-ADDRESS attribute of the sender, 32
    bytes in all. *)
Theorem X8_onMessage_response
    (now : Z) (msg : Buffer) (port : Z) (address : list Z) (w : World) :
  1 <= port <= 65535 ->
  length address = 4%nat /\ isBuffer address ->
  isBuffer msg ->
  ((check now w).1 = true /\ isBindingRequest msg ->
   Refactored.onMessage now msg port address w
   = Ok (Some (bindingResponse (slice 8 20 msg)
                 (specXorMappedAddress port address (slice 8 20 msg))),
         (check now w).2) /\
   length (bindingResponse (slice 8 20 msg)
             (specXorMappedAddress port address (slice 8 20 msg))) = 32%nat) /\
  (~ ((check now w).1 = true /\ isBindingRequest msg) ->
   Refactored.onMessage now msg port address w = Ok (None, (check now w).2)).
Proof.
  intros Hp1 Ha Hm. assert (Hp : 0 <= port <= 65535) by lia. split.
  - intros [Hc Hb].
    assert (Ht : length (slice 8 20 msg) = 12%nat /\ isBuffer (slice 8 20 msg)).
    { split; [apply slice_8_20_length, Hb|now apply isBuffer_slice]. }
    destruct (Refactored_onMessage_shape now msg port address w Hp)
      as [[Hn _]|(_ & _ & attr & Henc & Hlen & H)]; [tauto|].
    rewrite Refactored_encode in Henc by assumption.
    apply Ok_inj in Henc. subst attr.
    destruct (decide (1 <= port <= 65535)); [|contradiction].
    split; [exact H|].
    unfold bindingResponse, cookieBytes.
    rewrite !length_app, Hlen. destruct Ht as [-> _]. reflexivity.
  - intros Hn.
    destruct (Refactored_onMessage_shape now msg port address w Hp)
      as [[_ H]|(Hc & Hb & _)]; [exact H|tauto].
Qed.

Lemma X8_response_witness :
  Refactored.onMessage 5 sampleRequest samplePort sampleOctets
    (boot Refactored.limiter)
  = Ok (Some ([0x01; 0x01; 0x00; 0x0C] ++ cookieBytes ++ sampleTid
              ++ [0; 32; 0; 8; 0; 1; 245; 35; 234; 3; 247; 118]),
        (check 5 (boot Refactored.limiter)).2).
Proof.
  destruct sample_valid as (_ & Ho & _).
  destruct (X8_onMessage_response 5 sampleRequest samplePort sampleOctets
              (boot Refactored.limiter) ltac:(unfold samplePort; lia) Ho)
    as [H _].
  - now apply isBuffer_lit.
  - destruct H as [H _]; [|exact H].
    split; [reflexivity|]. unfold isBindingRequest.
    split; [vm_compute; lia|]. repeat split.
Defined.

Lemma Original_gate_check (now : Z) (g : Original.Globals) (w : World) :
  sameState g w ->
  (Original.gate now g).1 = (check now w).1 /\
  sameState (Original.gate now g).2 (check now w).2.
Proof.
  destruct g as [ts p tm]. destruct w as [[ts' p' m W P] tm'].
  intros (H1 & H2 & H3 & H4 & H5 & H6).
  cbn [Original.requestTimestamps Original.isPaused Original.timers limiter
       timers timestamps isPaused maxRequests timeWindow pauseDuration] in *.
  subst ts' p' tm' m W P.
  unfold Original.gate, Original.checkRateLimit, check, prune.
  cbn [Original.requestTimestamps Original.isPaused Original.timers limiter
       timers timestamps isPaused maxRequests timeWindow pauseDuration
       setTimestamps setPaused triggerPause].
  destruct p; [now repeat split|].
  rewrite andb_true_r.
  destruct (decide (_ > _)) as [Hgt|Hle].
  - rewrite bool_decide_eq_true_2 by exact Hgt. now repeat split.
  - rewrite bool_decide_eq_false_2 by exact Hle. now repeat split.
Qed.

Lemma Original_onData_not_binding
    (now : Z) (data : Buffer) (port : Z) (address : list Z) (g : Original.Globals) :
  ~ isBindingRequest data ->
  Original.onData now data port address g = Ok (None, (Original.gate now g).2).
Proof.
  intros Hb. unfold Original.onData.
  destruct (Original.gate now g) as [ok g']. cbn [fst snd].
  destruct ok; cbn [negb]; [|reflexivity].
  rewrite parseStunMessage_decode. cbn [rbind].
  pose proof (decode_not_binding data Hb) as Hd.
  destruct (decode data) as [e|m]; cbn [forgetError]; [reflexivity|].
  destruct (Z.eqb_spec (msg_type m) STUN_BINDING_REQUEST) as [Heq|_];
    [contradiction|reflexivity].
Qed.

(** What the [data] handler of the original script does, case by case. *)
Lemma Original_onData_shape
    (now : Z) (data : Buffer) (port : Z) (address : list Z) (g : Original.Globals) :
  0 <= port <= 65535 ->
  (~ ((Original.gate now g).1 = true /\ isBindingRequest data) /\
   Original.onData now data port address g
   = Ok (None, (Original.gate now g).2)) \/
  ((Original.gate now g).1 = true /\ isBindingRequest data /\
   exists attr,
     Original.createXorMappedAddress 1 port address (slice 8 20 data) = Ok attr /\
     length attr = 12%nat /\
     Original.onData now data port address g
     = Ok (Some (bindingResponse (slice 8 20 data) attr),
           (Original.gate now g).2)).
Proof.
  intros Hp.
  destruct (isBindingRequest_dec data) as [Hb|Hb];
    [|left; split; [tauto|now apply Original_onData_not_binding]].
  unfold Original.onData.
  destruct (Original.gate now g) as [ok g']. cbn [fst snd].
  destruct ok; cbn [negb]; [|left; split; [intros [H _]; discriminate H|reflexivity]].
  rewrite parseStunMessage_decode. cbn [rbind].
  right. rewrite (decode_binding data Hb).
  cbn [forgetError msg_type transactionId negb].
  change (0x0001 =? STUN_BINDING_REQUEST) with true. cbn [negb].
  destruct (Original_encoder_any_address port address (slice 8 20 data) Hp)
    as (rest & Henc & Hrest).
  assert (Hlen : length ([0x00; 0x20; 0x00; 0x08; 0x00; 0x01;
                          Z.lxor port 0x2112 / 256; Z.lxor port 0x2112 mod 256]
                         ++ rest) = 12%nat)
    by (rewrite length_app, Hrest; reflexivity).
  split; [reflexivity|]. split; [exact Hb|].
  eexists. split; [exact Henc|]. split; [exact Hlen|].
  rewrite Henc. cbn [rbind].
  rewrite createStunResponse_binding;
    [reflexivity|apply slice_8_20_length, Hb|exact Hlen].
Qed.

(** A response of [createStunResponse] carries its type in its first two
    bytes, whatever the transaction id and the attributes. *)
Lemma createStunResponse_type (type : Z) (tid out : Buffer) (attrs : list Buffer) :
  createStunResponse type tid attrs = Ok out ->
  0 <= type <= 65535 /\ bigEndian (slice 0 2 out) = type.
Proof.
  unfold createStunResponse, Buffer_concat.
  set (n := Z.of_nat (length (concat attrs))).
  unfold alloc. cbn [replicate].
  destruct (decide (0 <= type <= 65535)) as [Hty|Hty];
    [|rewrite writeUInt16BE_range_error by exact Hty; discriminate].
  rewrite writeUInt16BE_ok by (cbn [length]; lia).
  cbn [rbind insert list_insert].
  destruct (decide (0 <= n <= 65535)) as [Hn|Hn];
    [|rewrite writeUInt16BE_range_error by exact Hn; discriminate].
  rewrite writeUInt16BE_ok by (cbn [length]; lia).
  cbn [rbind insert list_insert].
  rewrite writeUInt32BE_ok by (cbn [length]; unfold STUN_MAGIC_COOKIE; lia).
  cbn [rbind insert list_insert].
  match goal with |- context [copy ?src ?tgt 8] =>
    destruct (copy_shape src tgt 8) as (rest & -> & _); [cbn [length]; lia|]
  end.
  cbn [take app concat]. intros H. apply Ok_inj in H. subst out.
  split; [exact Hty|].
  unfold slice, bigEndian. cbn [Nat.sub drop take foldl].
  pose proof (Z.div_mod type 256 ltac:(lia)). lia.
Qed.

Lemma response_not_binding (tid out : Buffer) (attrs : list Buffer) :
  createStunResponse STUN_BINDING_RESPONSE tid attrs = Ok out ->
  ~ isBindingRequest out.
Proof.
  intros H (_ & _ & _ & Ht).
  apply createStunResponse_type in H as [_ H].
  rewrite H in Ht. discriminate Ht.
Qed.

(** X9.  A handler never answers what a handler sent: every response it
    sends has the type [0x0101], and a datagram of that type fed to the
    handler of either variant, in any state and from any sender, gets no
    response. *)
Theorem X9_responses_are_not_answered
    (now : Z) (msg : Buffer) (port : Z) (address : list Z) (w w' : World)
    (resp : Buffer) :
  Refactored.onMessage now msg port address w = Ok (Some resp, w') ->
  bigEndian (slice 0 2 resp) = 0x0101 /\
  (forall now' port' address' w2,
      Refactored.onMessage now' resp port' address' w2
      = Ok (None, (check now' w2).2)) /\
  (forall now' port' address' g,
      Original.onData now' resp port' address' g
      = Ok (None, (Original.gate now' g).2)).
Proof.
  unfold Refactored.onMessage.
  destruct (check now w) as [ok w1].
  destruct ok; cbn [negb]; [|discriminate].
  destruct (parseStunMessage msg) as [[m|]|e]; cbn [rbind]; try discriminate.
  destruct (negb (msg_type m =? STUN_BINDING_REQUEST)); [discriminate|].
  destruct (Refactored.createXorMappedAddress 1 port address (transactionId m))
    as [attr|e]; cbn [rbind]; [|discriminate].
  destruct (createStunResponse STUN_BINDING_RESPONSE (transactionId m) [attr])
    as [out|e] eqn:Hresp; cbn [rbind]; [|discriminate].
  unfold Refactored.send.
  destruct (decide (1 <= port <= 65535)); cbn [rbind]; [|discriminate].
  intros H. injection H as -> _.
  split; [apply (createStunResponse_type _ _ _ _ Hresp)|].
  pose proof (response_not_binding _ _ _ Hresp) as Hn.
  split; intros.
  - now apply Refactored_onMessage_not_binding.
  - now apply Original_onData_not_binding.
Qed.

Lemma X9_not_answered_witness :
  Refactored.onMessage 6
    ([0x01; 0x01; 0x00; 0x0C] ++ cookieBytes ++ sampleTid
     ++ [0; 32; 0; 8; 0; 1; 245; 35; 234; 3; 247; 118])
    samplePort sampleOctets (boot Refactored.limiter)
  = Ok (None, (check 6 (boot Refactored.limiter)).2).
Proof.
  refine (proj1 (proj2 (X9_responses_are_not_answered 5 sampleRequest samplePort
            sampleOctets (boot Refactored.limiter)
            (check 5 (boot Refactored.limiter)).2 _ _)) 6 samplePort sampleOctets
            (boot Refactored.limiter)).
  vm_compute. reflexivity.
Defined.

(** X10.  On the same datagram from the same sender, with a port in
    1..65535, the handler of the original script and that of the class-based
    variant built with the constants of the script, in the same limiter
    state, both stay silent or both respond, end in the same limiter state,
    and their responses, of 32 bytes each, agree on the first 28: they can
    differ in the four address bytes only.  At the sender port 0 they part:
    to a Binding Request that is let through the script responds,
    [socket.write] taking no port, and the class-based handler raises. *)
Theorem X10_original_handler_agrees
    (now : Z) (data : Buffer) (port : Z) (address : list Z)
    (g : Original.Globals) (w : World) :
  sameState g w ->
  (1 <= port <= 65535 ->
   exists ro rr g' w',
     Original.onData now data port address g = Ok (ro, g') /\
     Refactored.onMessage now data port address w = Ok (rr, w') /\
     sameState g' w' /\
     match ro, rr with
     | None, None => True
     | Some a, Some b =>
         length a = 32%nat /\ length b = 32%nat /\ take 28 a = take 28 b
     | _, _ => False
     end) /\
  (port = 0 -> (check now w).1 = true -> isBindingRequest data ->
   (exists a g', Original.onData now data port address g = Ok (Some a, g')) /\
   Refactored.onMessage now data port address w = Throw RangeError).
Proof.
  intros Hs.
  destruct (Original_gate_check now g w Hs) as [Hg Hs'].
  split.
  - intros Hp1. assert (Hp : 0 <= port <= 65535) by lia.
    destruct (Original_onData_shape now data port address g Hp)
      as [[Hno Ho]|(Hgo & Hb & ao & Heo & Hlo & Ho)];
      destruct (Refactored_onMessage_shape now data port address w Hp)
        as [[Hnr Hr]|(Hgr & Hb' & ar & Her & Hlr & Hr)];
      try (destruct (decide (1 <= port <= 65535)); [|contradiction]);
      rewrite Ho, Hr; eexists _, _, _, _;
      (split; [reflexivity|]); (split; [reflexivity|]); (split; [exact Hs'|]).
    + exact I.
    + apply Hno. rewrite Hg. tauto.
    + apply Hnr. rewrite <- Hg. tauto.
    + pose proof (slice_8_20_length data (proj1 Hb)) as Ht.
      destruct (Original_encoder_any_address port address (slice 8 20 data) Hp)
        as (r1 & H1 & L1).
      destruct (Refactored_encoder_any_address port address (slice 8 20 data) Hp)
        as (r2 & H2 & L2).
      rewrite H1 in Heo. rewrite H2 in Her.
      apply Ok_inj in Heo, Her. subst ao ar.
      unfold bindingResponse, cookieBytes.
      rewrite !length_app, Ht, L1, L2.
      split; [reflexivity|]. split; [reflexivity|].
      rewrite !(app_assoc [1; 1; 0; 12]), !(app_assoc _ (slice 8 20 data)).
      rewrite !(app_assoc _ [0; 32; 0; 8; 0; 1; _; _]).
      rewrite !take_app_length'; [reflexivity| |];
        rewrite !length_app, Ht; reflexivity.
  - intros -> Hc Hb. split.
    + destruct (Original_onData_shape now data 0 address g ltac:(lia))
        as [[Hno _]|(_ & _ & ao & _ & _ & Ho)]; [|eauto].
      exfalso. apply Hno. rewrite Hg. tauto.
    + destruct (Refactored_onMessage_shape now data 0 address w ltac:(lia))
        as [[Hn _]|(_ & _ & attr & _ & _ & H)]; [tauto|].
      destruct (decide (1 <= 0 <= 65535)); [lia|exact H].
Qed.

Lemma X10_original_agrees_witness :
  (exists ro rr g' w',
     Original.onData 5 sampleRequest samplePort sampleOctets Original.initial
       = Ok (ro, g') /\
     Refactored.onMessage 5 sampleRequest samplePort sampleOctets
       (boot Refactored.limiter) = Ok (rr, w') /\
     sameState g' w' /\
     match ro, rr with
     | None, None => True
     | Some a, Some b =>
         length a = 32%nat /\ length b = 32%nat /\ take 28 a = take 28 b
     | _, _ => False
     end).
Proof.
  apply (X10_original_handler_agrees 5 sampleRequest samplePort sampleOctets
           Original.initial (boot Refactored.limiter)).
  - repeat split.
  - unfold samplePort. lia.
Defined.

(** ** The limiter over time *)

Lemma resumes_cases (fired : list Z) (l : RateLimiter) :
  foldl (fun l _ => resume l) l fired = l \/
  foldl (fun l _ => resume l) l fired = resume l.
Proof.
  destruct fired as [|d fired]; [now left|]. right. cbn [foldl].
  induction fired as [|d' fired IH]; [reflexivity|]. exact IH.
Qed.

Lemma bounded_runTimers (now : Z) (w : World) :
  bounded w -> bounded (runTimers now w).
Proof.
  unfold bounded, runTimers, getCurrentCount, getPausedState.
  cbn [limiter]. intros H.
  destruct (resumes_cases (filter (fun d => d <= now) (timers w)) (limiter w))
    as [-> | ->]; [exact H|].
  cbn [resume setTimestamps setPaused timestamps isPaused maxRequests length].
  lia.
Qed.

Lemma bounded_check (now : Z) (w : World) : bounded w -> bounded (check now w).2.
Proof.
  intros H. destruct (isPaused (limiter w)) eqn:Hp.
  - now rewrite check_paused.
  - rewrite check_open by exact Hp. cbv zeta.
    unfold bounded, getCurrentCount, getPausedState in *. rewrite Hp in H.
    pose proof (length_filter (fun ts => now - ts < timeWindow (limiter w))
                  (timestamps (limiter w))) as Hf.
    fold (prune now (limiter w)) in Hf.
    destruct (decide (_ > _)) as [Hgt|Hle];
      cbn [snd limiter setPaused setTimestamps timestamps isPaused maxRequests];
      rewrite ?Hp; rewrite length_app in *; cbn [length] in *; lia.
Qed.

Lemma reachable_bounded (w : World) : reachable w -> bounded w.
Proof.
  induction 1 as [m win p|e w _ IH].
  - unfold bounded, getCurrentCount, getPausedState. cbn. lia.
  - destruct e as [now|now]; cbn [step].
    + pose proof (bounded_check now _ (bounded_runTimers now w IH)) as H.
      destruct (check now (runTimers now w)). exact H.
    + now apply bounded_runTimers.
Qed.

(** X11.  The limiter holds a bounded number of timestamps: in every
    reachable state [getCurrentCount()] is at most [maxRequests] (or 0 if
    that is negative) while [getPausedState()] is false, and at most one more
    during a pause. *)
Theorem X11_getCurrentCount_bounded (w : World) :
  reachable w ->
  getCurrentCount (limiter w) <= Z.max 0 (maxRequests (limiter w)) + 1 /\
  (getPausedState (limiter w) = false ->
   getCurrentCount (limiter w) <= Z.max 0 (maxRequests (limiter w))).
Proof.
  intros Hr. pose proof (reachable_bounded w Hr) as H.
  unfold bounded in H.
  destruct (getPausedState (limiter w)); split; try lia; discriminate.
Qed.

Lemma X11_count_witness :
  getCurrentCount (limiter afterBurst31) <= 31.
Proof.
  exact (proj1 (X11_getCurrentCount_bounded afterBurst31 afterBurst31_reachable)).
Defined.

(** Instants that all lie in a span shorter than the window are within it. *)
Lemma withinWindow_range (W lo hi : Z) (nows : list Z) :
  hi - lo < W ->
  Forall (fun t => lo <= t <= hi) nows ->
  withinWindow W nows.
Proof.
  intros HW. induction 1 as [|t rest Ht Hrest IH]; [exact I|].
  cbn [withinWindow]. split; [|exact IH].
  eapply Forall_impl; [exact Hrest|]. cbn beta. intros t' Ht'. lia.
Qed.

Lemma pausedAnswer_datagrams (nows : list Z) :
  pausedAnswer <$> (Datagram <$> nows) = replicate (length nows) (Some false).
Proof.
  induction nows as [|t rest IH]; [reflexivity|].
  cbn [fmap list_fmap length replicate pausedAnswer] in *. now rewrite IH.
Qed.

(** Through the loop, from an open state holding [pre] with no callback
    pending, within the window and within the delay of the pause: the
    answers are true as long as the count stays within [maxRequests], false
    from then on. *)
Lemma run_within (nows pre : list Z) (w : World) (N : nat) :
  isPaused (limiter w) = false ->
  timers w = [] ->
  timestamps (limiter w) = pre ->
  maxRequests (limiter w) = Z.of_nat N ->
  (length pre <= N)%nat ->
  withinWindow (timeWindow (limiter w)) (pre ++ nows) ->
  withinWindow (setTimeoutDelay (pauseDuration (limiter w))) nows ->
  (run (Datagram <$> nows) w).1
  = Some <$> (replicate (length nows `min` (N - length pre)) true
              ++ replicate (length nows - (N - length pre)) false).
Proof.
  revert pre w. induction nows as [|t rest IH];
    intros pre w Hopen Htm Hpre Hmax Hle Hwin Hdelay; [reflexivity|].
  cbn [fmap list_fmap run step].
  rewrite runTimers_early by (rewrite Htm; constructor).
  assert (Hprune : prune t (limiter w) = pre).
  { rewrite prune_all; [exact Hpre|]. rewrite Hpre.
    eapply withinWindow_before, Hwin. }
  rewrite check_open by exact Hopen. cbv zeta. rewrite Hprune, Hmax, Htm.
  rewrite length_app. cbn [length app].
  destruct Hdelay as [Hafter Hdelay].
  destruct (decide (_ > _)) as [Hgt|Hngt].
  - erewrite run_paused; [|reflexivity|reflexivity|].
    + cbn [fst]. rewrite pausedAnswer_datagrams.
      replace (N - length pre)%nat with 0%nat by lia.
      rewrite Nat.min_0_r, Nat.sub_0_r. cbn [replicate app].
      now rewrite fmap_cons, fmap_replicate.
    + apply Forall_fmap. eapply Forall_impl; [exact Hafter|].
      intros t' Ht'. unfold compose. cbn [eventTime]. cbn beta in Ht'. lia.
  - specialize (IH (pre ++ [t])
                   {| limiter := setTimestamps (pre ++ [t]) (limiter w);
                      timers := [] |}).
    cbn [limiter timers setTimestamps isPaused timestamps maxRequests
         timeWindow pauseDuration] in IH.
    rewrite length_app in IH. cbn [length] in IH.
    destruct (run (Datagram <$> rest) _) as [rs w'] eqn:Hc. cbn [fst] in *.
    rewrite IH; [|exact Hopen|reflexivity|reflexivity|exact Hmax|lia
                 |now rewrite <- app_assoc|exact Hdelay].
    replace (S (length rest) `min` (N - length pre))%nat
      with (S (length rest `min` (N - (length pre + 1))))%nat by lia.
    replace (S (length rest) - (N - length pre))%nat
      with (length rest - (N - (length pre + 1)))%nat by lia.
    reflexivity.
Qed.

(** X12.  While a pause cannot have ended, a fresh limiter lets through at
    most [maxRequests] datagrams: over any burst in which every instant is
    less than [timeWindow] and less than the delay of the pause after all
    the earlier ones, the loop answers true to the first [maxRequests]
    datagrams and false to all the others. *)
Theorem X12_burst_answers (N : nat) (W P : Z) (nows : list Z) :
  withinWindow W nows ->
  withinWindow (setTimeoutDelay P) nows ->
  (run (Datagram <$> nows) (boot (Refactored.RateLimiter_new (Z.of_nat N) W P))).1
  = Some <$> (replicate (length nows `min` N) true
              ++ replicate (length nows - N) false).
Proof.
  intros Hwin Hdelay.
  rewrite (run_within nows [] _ N); try reflexivity.
  - cbn [length]. now rewrite Nat.sub_0_r.
  - cbn [length]. lia.
  - exact Hwin.
  - exact Hdelay.
Qed.

Lemma X12_burst_witness :
  (run (Datagram <$> [0; 1; 2; 3; 4])
       (boot (Refactored.RateLimiter_new 2 10000 3000))).1
  = [Some true; Some true; Some false; Some false; Some false].
Proof.
  apply (X12_burst_answers 2 10000 3000 [0; 1; 2; 3; 4]).
  - apply (withinWindow_range _ 0 4); [reflexivity|].
    repeat constructor; lia.
  - apply (withinWindow_range _ 0 4); [reflexivity|].
    repeat constructor; lia.
Defined.

Lemma Original_run_simulates
    (es : list Event) (g : Original.Globals) (w : World) :
  sameState g w ->
  (Original.run es g).1 = (run es w).1 /\
  sameState (Original.run es g).2 (run es w).2.
Proof.
  revert g w. induction es as [|e es IH]; intros g w Hs; [now split|].
  cbn [Original.run run].
  destruct (Original_step_simulates e g w Hs) as [H1 H2].
  destruct (Original.step e g) as [r g']. destruct (step e w) as [r' w'].
  cbn [fst snd] in *. subst r'.
  destruct (IH g' w' H2) as [H3 H4].
  destruct (Original.run es g') as [rs g'']. destruct (run es w') as [rs' w''].
  cbn [fst snd] in *. now subst rs'.
Qed.

(** X13.  Over any sequence of datagrams and loop turns, the original script
    and the class-based limiter built with the constants of the script,
    started in the same state, give the same answers and end in the same
    state: the gate [isPaused || !checkRateLimit()] of the script is
    [check()]. *)
Theorem X13_original_gate_is_check
    (es : list Event) (g : Original.Globals) (w : World) :
  sameState g w ->
  (Original.run es g).1 = (run es w).1 /\
  sameState (Original.run es g).2 (run es w).2.
Proof. apply Original_run_simulates. Qed.

Lemma X13_original_gate_witness :
  (Original.run burst31 Original.initial).1
  = (run burst31 (boot Refactored.limiter)).1.
Proof.
  apply (X13_original_gate_is_check burst31 Original.initial
           (boot Refactored.limiter)).
  repeat split.
Defined.

(** X14.  [checkRateLimit] of the original script is no gate by itself:
    called during a pause it records the instant and answers true, and
    registers no callback; what keeps a pause is the test of [isPaused] that
    the handler makes first, which leaves the state as it is. *)
Theorem X14_checkRateLimit_during_pause (now : Z) (g : Original.Globals) :
  Original.isPaused g = true ->
  (Original.checkRateLimit now g).1 = true /\
  last (Original.requestTimestamps (Original.checkRateLimit now g).2) = Some now /\
  Original.isPaused (Original.checkRateLimit now g).2 = true /\
  Original.timers (Original.checkRateLimit now g).2 = Original.timers g /\
  Original.gate now g = (false, g).
Proof.
  intros Hp. unfold Original.gate, Original.checkRateLimit. rewrite Hp.
  cbn [negb]. rewrite andb_false_r.
  cbn [fst snd Original.requestTimestamps Original.isPaused Original.timers].
  rewrite last_snoc. now repeat split.
Qed.

Lemma X14_during_pause_witness :
  (Original.checkRateLimit 40 (Original.run burst31 Original.initial).2).1 = true /\
  Original.gate 40 (Original.run burst31 Original.initial).2
  = (false, (Original.run burst31 Original.initial).2).
Proof.
  destruct (X14_checkRateLimit_during_pause 40
              (Original.run burst31 Original.initial).2)
    as (H1 & _ & _ & _ & H2); [vm_compute; reflexivity|].
  split; [exact H1|exact H2].
Defined.

(** ** The log of the config-driven variant *)

Lemma sendCallback_printed (now : Z) (a : string) (m : gmap string Z) :
  (Configured.sendCallback false now a m).1 = Configured.LogSent ->
  (Configured.sendCallback false now a m).2 = <[a := now]> m /\
  (forall t, m !! a = Some t -> t <> 0 ->
             now - t > Configured.LOG_DEBOUNCE_MS).
Proof.
  unfold Configured.sendCallback.
  destruct (m !! a) as [t|] eqn:Ha; [|intros _; split; [reflexivity|discriminate]].
  destruct (Z.eqb_spec t 0) as [->|Ht]; cbn [orb].
  - intros _. split; [reflexivity|]. intros t' [= <-] H. now elim H.
  - destruct (bool_decide_reflect (now - t > Configured.LOG_DEBOUNCE_MS));
      [|discriminate].
    intros _. split; [reflexivity|]. now intros t' [= <-] _.
Qed.

Lemma sendCallback_silent (now : Z) (a : string) (m : gmap string Z) :
  (Configured.sendCallback false now a m).1 <> Configured.LogSent ->
  (Configured.sendCallback false now a m).2 = m.
Proof.
  unfold Configured.sendCallback.
  destruct (m !! a) as [t|]; [|intros H; now elim H].
  destruct ((t =? 0) || bool_decide (now - t > Configured.LOG_DEBOUNCE_MS));
    [intros H; now elim H|reflexivity].
Qed.

(** Every line printed for an address recorded at a non-zero instant comes
    more than the debounce after it. *)
Lemma sendCallbacks_after (sends : list (Z * string)) (m : gmap string Z) :
  Forall (fun s => s.1 <> 0) sends ->
  Forall (fun p => forall t, m !! p.2 = Some t -> t <> 0 ->
                             p.1 - t > Configured.LOG_DEBOUNCE_MS)
         (Configured.sendCallbacks sends m).1.
Proof.
  intros Hnz. revert m. induction Hnz as [|[now a] sends Hnow _ IH]; intros m;
    [constructor|].
  cbn [Configured.sendCallbacks]. cbn [fst] in Hnow.
  pose proof (sendCallback_printed now a m) as Hp.
  pose proof (sendCallback_silent now a m) as Hs.
  destruct (Configured.sendCallback false now a m) as [line m1].
  cbn [fst snd] in *.
  specialize (IH m1).
  destruct (Configured.sendCallbacks sends m1) as [printed m2]. cbn [fst] in *.
  assert (Hline : line = Configured.LogSent \/ line <> Configured.LogSent)
    by (destruct line; [right|left|right]; congruence).
  destruct Hline as [->|Hne].
  - destruct (Hp eq_refl) as [-> Hgap]. constructor.
    + cbn [fst snd]. exact Hgap.
    + eapply Forall_impl; [exact IH|]. intros [t' a'] H t Ht Htz. cbn [fst snd] in *.
      destruct (decide (a = a')) as [<-|Hna].
      * rewrite lookup_insert_eq in H.
        pose proof (H now eq_refl Hnow). pose proof (Hgap t Ht Htz).
        unfold Configured.LOG_DEBOUNCE_MS in *. lia.
      * rewrite lookup_insert_ne in H by exact Hna. now apply H.
  - rewrite (Hs Hne) in IH. destruct line; [exact IH|congruence|exact IH].
Qed.

(** X15.  The lines 'Sent Binding Response' printed for one address are
    more than [LOG_DEBOUNCE_MS] apart: over any sequence of successful sends
    at non-zero instants, starting from any map, any two printed lines for
    the same address are more than 5000 ms apart. *)
Theorem X15_log_lines_spaced (sends : list (Z * string)) (m : gmap string Z) :
  Forall (fun s => s.1 <> 0) sends ->
  spaced (Configured.sendCallbacks sends m).1.
Proof.
  intros Hnz. revert m. induction Hnz as [|[now a] sends Hnow Hrest IH]; intros m;
    [exact I|].
  cbn [Configured.sendCallbacks]. cbn [fst] in Hnow.
  pose proof (sendCallback_printed now a m) as Hp.
  pose proof (sendCallbacks_after sends (Configured.sendCallback false now a m).2
                Hrest) as Hafter.
  destruct (Configured.sendCallback false now a m) as [line m1].
  cbn [fst snd] in *.
  specialize (IH m1).
  destruct (Configured.sendCallbacks sends m1) as [printed m2]. cbn [fst] in *.
  destruct line; try exact IH.
  destruct (Hp eq_refl) as [-> _]. cbn [spaced]. split; [|exact IH].
  eapply Forall_impl; [exact Hafter|]. intros [t' a'] H Ha. cbn [fst snd] in *.
  subst a'. rewrite lookup_insert_eq in H. now apply H.
Qed.

Lemma X15_spaced_witness :
  (Configured.sendCallbacks
     [(1000, "10.0.0.1"); (2000, "10.0.0.1"); (6000, "10.0.0.1");
      (6001, "10.0.0.1"); (2500, "10.0.0.2")] ∅).1
  = [(1000, "10.0.0.1"); (6001, "10.0.0.1"); (2500, "10.0.0.2")] /\
  spaced (Configured.sendCallbacks
            [(1000, "10.0.0.1"); (2000, "10.0.0.1"); (6000, "10.0.0.1");
             (6001, "10.0.0.1"); (2500, "10.0.0.2")] ∅).1.
Proof.
  split; [vm_compute; reflexivity|].
  apply X15_log_lines_spaced. repeat constructor; discriminate.
Defined.

(** X16.  The map [lastLogTime] is never pruned: over any sequence of
    successful sends every address it held is still there, every address a
    line was printed for has an entry, and the entries of the addresses not
    sent to are as they were. *)
Theorem X16_lastLogTime_only_grows (sends : list (Z * string)) (m : gmap string Z) :
  dom m ⊆ dom (Configured.sendCallbacks sends m).2 /\
  Forall (fun p => p.2 ∈ dom (Configured.sendCallbacks sends m).2)
         (Configured.sendCallbacks sends m).1 /\
  (forall b, Forall (fun s => s.2 <> b) sends ->
             (Configured.sendCallbacks sends m).2 !! b = m !! b).
Proof.
  revert m. induction sends as [|[now a] sends IH]; intros m.
  { cbn [Configured.sendCallbacks fst snd].
    split; [set_solver|]. split; [constructor|]. intros b _. reflexivity. }
  cbn [Configured.sendCallbacks].
  pose proof (sendCallback_printed now a m) as Hp.
  pose proof (sendCallback_silent now a m) as Hs.
  destruct (Configured.sendCallback false now a m) as [line m1].
  cbn [fst snd] in *.
  destruct (IH m1) as (IH1 & IH2 & IH3).
  destruct (Configured.sendCallbacks sends m1) as [printed m2].
  cbn [fst snd] in *.
  assert (Hm1 : m1 = <[a := now]> m \/ m1 = m).
  { destruct line; [right; apply Hs; discriminate|left; now apply Hp
                   |right; apply Hs; discriminate]. }
  assert (Hdom : dom m ⊆ dom m1).
  { destruct Hm1 as [->| ->]; [apply dom_insert_subseteq|reflexivity]. }
  split; [etrans; [exact Hdom|exact IH1]|]. split.
  - destruct line; try exact IH2. constructor; [|exact IH2].
    cbn [snd]. apply IH1. destruct (Hp eq_refl) as [-> _].
    apply elem_of_dom. rewrite lookup_insert_eq. eauto.
  - intros b Hb. apply Forall_cons in Hb as [Hab Hb]. cbn [snd] in Hab.
    rewrite (IH3 b Hb).
    destruct Hm1 as [->| ->]; [now rewrite lookup_insert_ne|reflexivity].
Qed.

(** X17.  [createStunResponse] keeps the header at 20 bytes for a transaction
    id of any length: the twelve bytes of its field are the transaction id
    cut at 12 bytes or padded with zeros. *)
Theorem X17_response_any_transaction_id
    (type : Z) (tid : Buffer) (attrs : list Buffer) :
  0 <= type <= 65535 ->
  Z.of_nat (sum_list (length <$> attrs)) <= 65535 ->
  createStunResponse type tid attrs
  = Ok (specResponse type (take 12 (tid ++ replicate 12 0)) attrs) /\
  length (take 12 (tid ++ replicate 12 0)) = 12%nat.
Proof.
  intros Hty Hsum. split.
  - unfold createStunResponse, specResponse, Buffer_concat.
    rewrite concat_length_sum.
    set (n := Z.of_nat (sum_list (length <$> attrs))) in *.
    unfold alloc. cbn [replicate].
    rewrite writeUInt16BE_ok by (cbn [length]; lia).
    cbn [rbind insert list_insert].
    rewrite writeUInt16BE_ok by (cbn [length]; lia).
    cbn [rbind insert list_insert].
    rewrite writeUInt32BE_ok by (cbn [length]; unfold STUN_MAGIC_COOKIE; lia).
    cbn [rbind insert list_insert].
    unfold copy. cbn [length Nat.sub take]. cbn [concat]. rewrite app_nil_r.
    f_equal. unfold cookieBytes. cbn [app].
    do 8 f_equal. f_equal.
    cbn [Nat.add drop].
    change [0; 0; 0; 0; 0; 0; 0; 0; 0; 0; 0; 0] with (replicate 12 0).
    rewrite drop_replicate, take_app, take_replicate.
    destruct (Nat.le_gt_cases 12 (length tid)) as [Hl|Hl].
    + replace (length tid `min` 12)%nat with 12%nat by lia.
      replace (12 - length tid)%nat with 0%nat by lia. reflexivity.
    + replace (length tid `min` 12)%nat with (length tid) by lia.
      rewrite !take_ge by lia. do 2 f_equal. lia.
  - rewrite length_take, length_app, length_replicate. lia.
Qed.

Lemma X17_any_tid_witness :
  createStunResponse STUN_BINDING_RESPONSE [0xAA; 0xBB] []
  = Ok ([0x01; 0x01; 0x00; 0x00] ++ cookieBytes
        ++ [0xAA; 0xBB; 0; 0; 0; 0; 0; 0; 0; 0; 0; 0]).
Proof.
  destruct (X17_response_any_transaction_id STUN_BINDING_RESPONSE [0xAA; 0xBB] [])
    as [H _]; [unfold STUN_BINDING_RESPONSE; lia|cbn; lia|exact H].
Defined.

(** X18.  [parseStunMessage] accepts nothing but well-formed datagrams: a
    message is returned only for a datagram of at least 20 bytes with the
    magic cookie and the declared length, and it then holds the header
    fields, a transaction id of 12 bytes and attributes of exactly the
    declared length. *)
Theorem X18_parseStunMessage_accepts_only (d : Buffer) (m : StunMessage) :
  parseStunMessage d = Ok (Some m) ->
  (20 <= length d)%nat /\
  bigEndian (slice 4 8 d) = 0x2112A442 /\
  Z.of_nat (length d) = 20 + msg_length m /\
  msg_type m = bigEndian (slice 0 2 d) /\
  msg_length m = bigEndian (slice 2 4 d) /\
  transactionId m = slice 8 20 d /\
  length (transactionId m) = 12%nat /\
  attributes m = drop 20 d /\
  Z.of_nat (length (attributes m)) = msg_length m.
Proof.
  rewrite parseStunMessage_decode. unfold decode.
  destruct (decide (length d < 20)%nat) as [|Hl]; [discriminate|].
  destruct (decide (bigEndian (slice 4 8 d) <> 0x2112A442)) as [|Hc];
    [discriminate|].
  destruct (decide (Z.of_nat (length d) <> 20 + bigEndian (slice 2 4 d)))
    as [|Hn]; [discriminate|].
  cbn [forgetError]. intros H. apply Ok_inj in H. injection H as <-.
  cbn [msg_type msg_length transactionId attributes].
  assert (Z.of_nat (length d) = 20 + bigEndian (slice 2 4 d)) by lia.
  repeat split; try lia.
  - rewrite slice_8_20_length; lia.
  - rewrite length_drop. lia.
Qed.

Lemma X18_accepts_only_witness :
  (20 <= length sampleRequest)%nat /\
  bigEndian (slice 4 8 sampleRequest) = 0x2112A442.
Proof.
  destruct (X18_parseStunMessage_accepts_only sampleRequest
              {| msg_type := 1; msg_length := 0; transactionId := sampleTid;
                 attributes := [] |}) as (H1 & H2 & _);
    [vm_compute; reflexivity|].
  split; [exact H1|exact H2].
Defined.

(** ** The burst that trips the script *)

(** With no callback pending, datagrams that are all answered true, but
    perhaps the last, go through the loop as through [check()] alone. *)
Lemma run_datagrams_checks (nows : list Z) (w : World) :
  timers w = [] ->
  Forall (fun r => r = true) (removelast (checks nows w).1) ->
  run (Datagram <$> nows) w = (Some <$> (checks nows w).1, (checks nows w).2).
Proof.
  revert w. induction nows as [|t rest IH]; intros w Htm Hall; [reflexivity|].
  cbn [fmap list_fmap run step checks] in *.
  rewrite runTimers_early by (rewrite Htm; constructor).
  destruct (check t w) as [r w1] eqn:Hc.
  destruct rest as [|t' rest]; [reflexivity|].
  assert (Hr : r = true).
  { destruct (checks (t' :: rest) w1) as [rs w2] eqn:Hcs. cbn [fst] in Hall.
    destruct rs as [|r' rs]; [cbn [checks] in Hcs;
      destruct (check t' w1), (checks rest _); discriminate Hcs|].
    cbn [removelast] in Hall. now apply Forall_cons in Hall as [Hall _]. }
  subst r.
  assert (Htm1 : timers w1 = []).
  { destruct (isPaused (limiter w)) eqn:Hp.
    - rewrite check_paused in Hc by exact Hp. discriminate Hc.
    - rewrite check_open in Hc by exact Hp. cbv zeta in Hc.
      destruct (decide (_ > _)); [discriminate Hc|].
      injection Hc as <-. exact Htm. }
  specialize (IH w1 Htm1).
  destruct (checks (t' :: rest) w1) as [rs w2] eqn:Hcs. cbn [fst snd] in *.
  rewrite IH; [reflexivity|].
  destruct rs as [|r' rs]; [constructor|].
  cbn [removelast] in Hall. now apply Forall_cons in Hall as [_ Hall].
Qed.

Lemma removelast_snoc {A} (l : list A) (x : A) : removelast (l ++ [x]) = l.
Proof.
  induction l as [|y l IH]; [reflexivity|].
  cbn [app removelast]. destruct (l ++ [x]) eqn:E; [now destruct l|].
  now rewrite IH.
Qed.

(** X19.  The script does what its header says, 'pause for 3 seconds if
    more than 30 requests are received in 10 seconds': started afresh, of any
    31 datagrams each less than 10000 ms after all the earlier ones the
    first 30 pass the gate and the 31st is dropped, which starts the pause
    and registers the one callback for 3000 ms after it. *)
Theorem X19_original_trips_at_31 (nows : list Z) :
  length nows = 31%nat ->
  withinWindow Original.TIME_WINDOW nows ->
  (Original.run (Datagram <$> nows) Original.initial).1
  = replicate 30 (Some true) ++ [Some false] /\
  Original.isPaused (Original.run (Datagram <$> nows) Original.initial).2 = true /\
  Original.requestTimestamps (Original.run (Datagram <$> nows) Original.initial).2
  = nows /\
  exists t, last nows = Some t /\
    Original.timers (Original.run (Datagram <$> nows) Original.initial).2
    = [t + Original.PAUSE_DURATION].
Proof.
  intros Hlen Hwin.
  assert (Hs : sameState Original.initial (boot Refactored.limiter))
    by (repeat split).
  destruct (Original_run_simulates (Datagram <$> nows) _ _ Hs) as [Hr Hst].
  destruct (checks_burst nows [] (boot Refactored.limiter))
    as (H1 & H2 & H3 & t & H4 & H5); try reflexivity.
  { intros ->. discriminate Hlen. }
  { cbn [length Nat.add]. rewrite Hlen. reflexivity. }
  { exact Hwin. }
  rewrite Hlen in H1. cbn [Nat.sub] in H1.
  rewrite run_datagrams_checks in Hr, Hst;
    [|reflexivity|rewrite H1, removelast_snoc; apply Forall_replicate; reflexivity
     |reflexivity|rewrite H1, removelast_snoc; apply Forall_replicate; reflexivity].
  cbn [fst snd] in Hr, Hst. rewrite Hr, H1.
  destruct Hst as (S1 & S2 & S3 & _).
  rewrite S1, S2, S3, H2, H3, H5.
  split; [now rewrite fmap_app, fmap_replicate|].
  split; [reflexivity|]. split; [reflexivity|].
  exists t. split; [exact H4|reflexivity].
Qed.

Lemma burst31_within : withinWindow Original.TIME_WINDOW (Z.of_nat <$> seq 0 31).
Proof.
  apply (withinWindow_range _ 0 30); [reflexivity|].
  apply Forall_fmap, Forall_forall. intros n Hn.
  apply elem_of_seq in Hn. cbn beta. unfold compose. lia.
Qed.

Lemma X19_trips_witness :
  (Original.run (Datagram <$> (Z.of_nat <$> seq 0 31)) Original.initial).1
  = replicate 30 (Some true) ++ [Some false].
Proof.
  exact (proj1 (X19_original_trips_at_31 (Z.of_nat <$> seq 0 31)
                  eq_refl burst31_within)).
Defined.
